(** * sigupdate: a shallow embedding of the ClamAV signature mirror updater

    The Go program [sigupdate.go] keeps a directory of ClamAV signature
    databases in step with a mirror.  This development embeds the functions
    [parseTxtRecord], [findLocalVersion], [checkIfRemoteIsNewer],
    [downloadFile] and [updateFile] and states what they do.

    Conventions of the embedding:
    - a Go [int64] is a [Z] and every arithmetic result is passed through
      [wrap64];
    - a Go [string] is a [string] of bytes;
    - a Go result pair [(v, err)] is a pair [(v, option error)], [None]
      standing for [nil];
    - a run-time panic (index out of range, nil dereference) is the
      outcome [Panicked];
    - the file system is a finite map from paths to files, and everything
      the program cannot decide alone (HTTP, temporary files, the clock,
      the sigtool process) is an oracle of the environment [Env]. *)

From Stdlib Require Import ZArith String Ascii List Lia Bool DecimalString Sorted.
From Stdlib Require Import DecimalPos DecimalZ.
From stdpp Require Import gmap strings.

Local Open Scope string_scope.
Local Open Scope Z_scope.

(** ** Outcomes and errors *)

(** [OutOfFuel] is not a behaviour of the program: it is what the bounded
    model of the one unbounded loop (in [updateFile]) answers when the
    bound given to it is used up. *)
Inductive Outcome (A : Type) : Type :=
| Returned (a : A)
| Panicked (msg : string)
| OutOfFuel.
Arguments Returned {A} a.
Arguments Panicked {A} msg.
Arguments OutOfFuel {A}.

Definition obind {A B} (o : Outcome A) (k : A -> Outcome B) : Outcome B :=
  match o with
  | Returned a => k a
  | Panicked m => Panicked m
  | OutOfFuel => OutOfFuel
  end.

Inductive NumError : Type := ErrSyntax | ErrRange.

(** Go [error] values that the program builds or receives. *)
Inductive error : Type :=
| errorsNew (msg : string)
| Wrapf (format : string) (inner : error)
| strconvError (fn num : string) (e : NumError)
| osError (msg : string).

(** ** 64-bit integers *)

Definition MaxInt64 : Z := 9223372036854775807.
Definition MinInt64 : Z := -9223372036854775808.

Definition wrap64 (z : Z) : Z := (z + 2 ^ 63) mod 2 ^ 64 - 2 ^ 63.

(** ** The parts of Go's [strings] and [strconv] that the program calls *)

Module GoStrings.

Definition HasPrefix (s pre : string) : bool := String.prefix pre s.

Fixpoint dropn (n : nat) (s : string) : string :=
  match n, s with
  | O, _ => s
  | S _, EmptyString => EmptyString
  | S k, String _ r => dropn k r
  end.

(** [cut sep s] splits [s] around the first occurrence of [sep]. *)
Fixpoint cut (sep s : string) : option (string * string) :=
  if String.prefix sep s then Some (EmptyString, dropn (String.length sep) s)
  else match s with
       | EmptyString => None
       | String c r =>
           match cut sep r with
           | Some (a, b) => Some (String c a, b)
           | None => None
           end
       end.

(** [genSplit]: cut at most [k] times; the last element is the unsplit
    rest.  [sepSave] keeps the separator at the end of each piece. *)
Fixpoint genSplit (k : nat) (sep : string) (sepSave : bool) (s : string)
  : list string :=
  match k with
  | O => [s]
  | S k' =>
      match cut sep s with
      | None => [s]
      | Some (a, b) =>
          (if sepSave then String.append a sep else a)
            :: genSplit k' sep sepSave b
      end
  end.

(** [strings.SplitN(s, sep, n)] for a non-empty [sep] and [n >= 0]. *)
Definition SplitN (s sep : string) (n : nat) : list string :=
  match n with
  | O => []
  | S k => genSplit k sep false s
  end.

(** [strings.SplitAfter(s, sep)] for a non-empty [sep]: no bound on
    the number of pieces; a string of length [n] has at most [n]
    occurrences of [sep]. *)
Definition SplitAfter (s sep : string) : list string :=
  genSplit (String.length s) sep true s.

Definition bytes (l : list nat) : string :=
  string_of_list_ascii (List.map ascii_of_nat l).

(** UTF-8 encodings of the code points for which [unicode.IsSpace]
    holds. *)
Definition spaces : list string :=
  List.map bytes
    [ [9]; [10]; [11]; [12]; [13]; [32]
    ; [194; 133]; [194; 160]; [225; 154; 128]
    ; [226; 128; 128]; [226; 128; 129]; [226; 128; 130]; [226; 128; 131]
    ; [226; 128; 132]; [226; 128; 133]; [226; 128; 134]; [226; 128; 135]
    ; [226; 128; 136]; [226; 128; 137]; [226; 128; 138]
    ; [226; 128; 168]; [226; 128; 169]; [226; 128; 175]
    ; [226; 129; 159]; [227; 128; 128] ]%nat.

Fixpoint stripSpace (sp : list string) (s : string) : option string :=
  match sp with
  | [] => None
  | p :: sp' =>
      if String.prefix p s then Some (dropn (String.length p) s)
      else stripSpace sp' s
  end.

Fixpoint trimLeft (sp : list string) (k : nat) (s : string) : string :=
  match k with
  | O => s
  | S k' =>
      match stripSpace sp s with
      | Some r => trimLeft sp k' r
      | None => s
      end
  end.

Definition rev_string (s : string) : string :=
  string_of_list_ascii (List.rev (list_ascii_of_string s)).

Definition TrimSpace (s : string) : string :=
  let l := trimLeft spaces (String.length s) s in
  rev_string
    (trimLeft (List.map rev_string spaces) (String.length l) (rev_string l)).

End GoStrings.

Module GoStrconv.

Definition digit (c : ascii) : option Z :=
  let n := Z.of_nat (nat_of_ascii c) in
  if (48 <=? n) && (n <=? 57) then Some (n - 48) else None.

Fixpoint digits (acc : Z) (s : string) : option Z :=
  match s with
  | EmptyString => Some acc
  | String c r =>
      match digit c with
      | Some d => digits (10 * acc + d) r
      | None => None
      end
  end.

(** [strconv.ParseInt(s, 10, 64)]: an optional sign, then one or more
    decimal digits, and the value has to fit 64 signed bits. *)
Definition ParseInt (s : string) : Z + NumError :=
  match s with
  | EmptyString => inr ErrSyntax
  | String c r =>
      let neg := Ascii.eqb c "-" in
      let body := if Ascii.eqb c "+" || neg then r else s in
      match body with
      | EmptyString => inr ErrSyntax
      | _ =>
          match digits 0 body with
          | None => inr ErrSyntax
          | Some un =>
              let cutoff := 2 ^ 63 in
              if negb neg && (cutoff <=? un) then inr ErrRange
              else if neg && (cutoff <? un) then inr ErrRange
              else inl (if neg then - un else un)
          end
      end
  end.

(** [strconv.FormatInt(i, 10)]. *)
Definition FormatInt (i : Z) : string :=
  DecimalString.NilZero.string_of_int (Z.to_int i).

End GoStrconv.

Import GoStrings GoStrconv.

(** ** [parseTxtRecord] *)

(** Modelled from the spec: the struct [SignatureVersions] is declared
    outside [sigupdate.go]; the spec's version record has four integer
    fields, and the program writes the four below. *)
Record SignatureVersions : Type := mkVersions {
  MainVersion : Z;
  DailyVersion : Z;
  SafeBrowsingVersion : Z;
  ByteCodeVersion : Z
}.

Definition zeroVersions : SignatureVersions := mkVersions 0 0 0 0.

(** Indexing a slice: out of range is a run-time panic. *)
Definition index (s : list string) (i : nat) : Outcome string :=
  match nth_error s i with
  | Some x => Returned x
  | None => Panicked "index out of range"
  end.

Definition parseField (what : string) (field : string)
    (k : Z -> Outcome (SignatureVersions * option error))
  : Outcome (SignatureVersions * option error) :=
  match ParseInt field with
  | inr e =>
      Returned (zeroVersions,
                Some (Wrapf ("Error parsing " ++ what ++ " version. {{err}}")
                            (strconvError "ParseInt" field e)))
  | inl v => k v
  end.

Definition parseTxtRecord (mirrorTxtRecord : string)
  : Outcome (SignatureVersions * option error) :=
  let s := SplitN mirrorTxtRecord ":" 8 in
  obind (index s 1) (fun s1 =>
  parseField "main" s1 (fun mainv =>
  obind (index s 2) (fun s2 =>
  parseField "daily" s2 (fun daily =>
  obind (index s 6) (fun s6 =>
  parseField "safe browsing" s6 (fun safebrowsingv =>
  obind (index s 7) (fun s7 =>
  parseField "bytecode" s7 (fun bytecodev =>
  Returned (mkVersions mainv daily safebrowsingv bytecodev, None))))))))).

(** ** [findLocalVersion] *)

(** What one run of [sigtool -i file] gives the caller: the errors of
    [StdoutPipe], [Start], the scanner and [Wait], and the lines that the
    scanner yields. *)
Record SigtoolRun : Type := mkSigtoolRun {
  pipeErr : option error;
  startErr : option error;
  stdoutLines : list string;
  scanErr : option error;
  waitErr : option error
}.

Definition errVersion : Z := -1.

Inductive ScanExit : Type :=
| ScanReturn (r : Z * option error)
| ScanEnd (version : Z) (validated : bool).

Fixpoint scanLoop (lines : list string) (version : Z) (validated : bool)
  : Outcome ScanExit :=
  match lines with
  | [] => Returned (ScanEnd version validated)
  | line :: rest =>
      let mark v :=
        scanLoop rest v
          (if HasPrefix line "Verification OK" then true else validated) in
      if HasPrefix line "Version:" then
        let s := SplitAfter line "Version: " in
        obind (index s 1) (fun s1 =>
          let versionString := TrimSpace s1 in
          match ParseInt versionString with
          | inr e =>
              Returned (ScanReturn
                (errVersion,
                 Some (Wrapf ("Error converting [" ++ versionString
                                ++ "] to 64-bit integer. {{err}}")
                             (strconvError "ParseInt" versionString e))))
          | inl parsedVersion => mark parsedVersion
          end)
      else mark version
  end.

Definition notValidated : error :=
  errorsNew "The file was not reported as validated".

Definition findLocalVersion (run : SigtoolRun) : Outcome (Z * option error) :=
  match pipeErr run with
  | Some _ =>
      (* [defer stdout.Close()] on the nil pipe *)
      Panicked "invalid memory address or nil pointer dereference"
  | None =>
      match startErr run with
      | Some e => Returned (errVersion, Some (Wrapf "Error running sigtool. {{err}}" e))
      | None =>
          obind (scanLoop (stdoutLines run) MinInt64 false) (fun x =>
            match x with
            | ScanReturn r => Returned r
            | ScanEnd version validated =>
                if negb validated then Returned (errVersion, Some notValidated)
                else if version =? MinInt64 then
                  Returned (errVersion,
                    Some (errorsNew "No version information was available for file"))
                else match scanErr run with
                | Some e => Returned (errVersion, Some (Wrapf "Error parsing sigtool STDOUT" e))
                | None =>
                    match waitErr run with
                    | Some e =>
                        Returned (errVersion,
                          Some (Wrapf "Error waiting for sigtool STDOUT to flush" e))
                    | None => Returned (version, None)
                    end
                end
            end)
      end
  end.

(** ** The world the program runs in *)

Record File : Type := mkFile {
  modTime : Z;
  contents : string
}.

(** The file system, and a counter of the interactions with the
    environment so far: the oracles below may answer differently at
    different moments. *)
Record World : Type := mkWorld {
  files : gmap string File;
  tick : nat
}.

Record Response : Type := mkResponse {
  StatusCode : Z;
  Status : string;
  LastModified : string;   (* Header.Get("Last-Modified"), empty when absent *)
  Body : string;           (* the bytes that reading the body delivers *)
  BodyErr : option error   (* the error that ends the reading, if any *)
}.

(** The environment.  Every oracle sees the world at the moment of the
    call.  [httpParseTime] stands for the library function
    [http.ParseTime], which is not part of the program. *)
Record Env : Type := mkEnv {
  osTempFile : World -> string -> string + error;       (* ioutil.TempFile: the name of the new file *)
  httpHead : World -> string -> Response + error;       (* http.Head *)
  httpGet : World -> string -> Response + error;        (* http.Get *)
  httpParseTime : string -> Z + error;                  (* http.ParseTime *)
  timeNow : World -> Z;                                 (* time.Now *)
  osRename : World -> string -> string -> option error; (* os.Rename *)
  osChtimes : World -> string -> Z -> option error;     (* os.Chtimes *)
  sigtool : World -> string -> string -> SigtoolRun     (* exec of sigtool -i *)
}.

(** What a run exchanged with its environment, in order, each exchange
    with its answer.  [EvCall] is no exchange: it marks the entry of
    [downloadFile], so that the calls of a run can be told. *)
Inductive Event : Type :=
| EvCall (filename localFilePath : string)
| EvTempFile (pfx : string) (r : string + error)
| EvHead (url : string) (r : Response + error)
| EvGet (url : string) (r : Response + error)
| EvCopy (tmp : string) (r : option error)
| EvRename (src dst : string) (r : option error)
| EvChtimes (path : string) (t : Z) (r : option error)
| EvSigtool (sigtoolPath path : string) (run : SigtoolRun).

Record Run (A : Type) : Type := mkRun {
  final : World;
  trace : list Event;
  outcome : Outcome A
}.
Arguments mkRun {A} final trace outcome.
Arguments final {A} r.
Arguments trace {A} r.
Arguments outcome {A} r.

Definition M (A : Type) : Type := World -> Run A.

Definition ret {A} (a : A) : M A := fun w => mkRun w [] (Returned a).

Definition panic {A} (msg : string) : M A := fun w => mkRun w [] (Panicked msg).

Definition outOfFuel {A} : M A := fun w => mkRun w [] OutOfFuel.

Definition bind {A B} (m : M A) (k : A -> M B) : M B := fun w =>
  match m w with
  | mkRun w1 t1 (Returned a) =>
      match k a w1 with
      | mkRun w2 t2 o => mkRun w2 (t1 ++ t2) o
      end
  | mkRun w1 t1 (Panicked msg) => mkRun w1 t1 (Panicked msg)
  | mkRun w1 t1 OutOfFuel => mkRun w1 t1 OutOfFuel
  end.

Notation "x <- m ;; k" := (bind m (fun x => k))
  (at level 100, m at next level, right associativity).

Definition liftOutcome {A} (o : Outcome A) : M A := fun w => mkRun w [] o.

(** One interaction with the environment: the counter advances, and
    [store] also replaces the file system. *)
Definition store (fs : gmap string File) (w : World) : World :=
  mkWorld fs (S (tick w)).

Definition advance (w : World) : World := mkWorld (files w) (S (tick w)).

(** Modelled from the spec: the helper [exists] is defined outside
    [sigupdate.go]; the spec calls it a filesystem existence check. *)
Definition fileExists (w : World) (path : string) : bool :=
  match files w !! path with
  | Some _ => true
  | None => false
  end.

Section Program.

Variable env : Env.

Definition exists_ (path : string) : M bool :=
  fun w => mkRun w [] (Returned (fileExists w path)).

(** [os.Stat] *)
Definition Stat (path : string) : M (File + error) := fun w =>
  mkRun w []
    (Returned (match files w !! path with
               | Some f => inl f
               | None => inr (osError "no such file or directory")
               end)).

(** [ioutil.TempFile(os.TempDir(), pfx)]: a new, empty file, or [nil]
    and an error. *)
Definition TempFile (pfx : string) : M (option string * option error) :=
  fun w =>
    match osTempFile env w pfx with
    | inl name =>
        mkRun (store (<[name := mkFile (timeNow env w) ""]> (files w)) w)
              [EvTempFile pfx (inl name)]
              (Returned (Some name, None))
    | inr e =>
        mkRun (advance w) [EvTempFile pfx (inr e)]
              (Returned (None, Some e))
    end.

(** [output.Name()], the method of [*os.File]: a nil file cannot be
    dereferenced. *)
Definition FileName (output : option string) : M string :=
  match output with
  | Some name => ret name
  | None => panic "invalid memory address or nil pointer dereference"
  end.

Definition Head (url : string) : M (Response + error) := fun w =>
  let r := httpHead env w url in
  mkRun (advance w) [EvHead url r] (Returned r).

Definition Get (url : string) : M (Response + error) := fun w =>
  let r := httpGet env w url in
  mkRun (advance w) [EvGet url r] (Returned r).

Definition Now : M Z := fun w => mkRun w [] (Returned (timeNow env w)).

(** [io.Copy(output, response.Body)]: what could be read is in the
    temporary file afterwards. *)
Definition Copy (tmp : string) (response : Response) : M (option error) :=
  fun w =>
    mkRun (store (<[tmp := mkFile (timeNow env w) (Body response)]> (files w)) w)
          [EvCopy tmp (BodyErr response)]
          (Returned (BodyErr response)).

(** [os.Rename] *)
Definition Rename (src dst : string) : M (option error) := fun w =>
  match osRename env w src dst, files w !! src with
  | None, Some f =>
      mkRun (store (<[dst := f]> (delete src (files w))) w)
            [EvRename src dst None] (Returned None)
  | Some e, _ =>
      mkRun (advance w) [EvRename src dst (Some e)] (Returned (Some e))
  | None, None =>
      let e := osError "no such file or directory" in
      mkRun (advance w) [EvRename src dst (Some e)] (Returned (Some e))
  end.

(** [os.Chtimes(path, t, t)] *)
Definition Chtimes (path : string) (t : Z) : M (option error) := fun w =>
  match osChtimes env w path t, files w !! path with
  | None, Some f =>
      mkRun (store (<[path := mkFile t (contents f)]> (files w)) w)
            [EvChtimes path t None] (Returned None)
  | Some e, _ =>
      mkRun (advance w) [EvChtimes path t (Some e)] (Returned (Some e))
  | None, None =>
      let e := osError "no such file or directory" in
      mkRun (advance w) [EvChtimes path t (Some e)] (Returned (Some e))
  end.

Definition runSigtool (sigtoolPath localFilePath : string) : M SigtoolRun :=
  fun w =>
    let r := sigtool env w sigtoolPath localFilePath in
    mkRun (advance w) [EvSigtool sigtoolPath localFilePath r] (Returned r).

(** ** [checkIfRemoteIsNewer] *)

Definition checkIfRemoteIsNewer (verboseMode : bool)
    (localFilePath downloadURL : string) : M (bool * option error) :=
  st <- Stat localFilePath ;;
  match st with
  | inr err => ret (true, Some (Wrapf "Unable to stat file. {{err}}" err))
  | inl localFileStat =>
      let localModTime := modTime localFileStat in
      h <- Head downloadURL ;;
      match h with
      | inr err =>
          ret (true,
               Some (Wrapf ("Unable to complete HEAD request: ["
                              ++ downloadURL ++ "]. {{err}}") err))
      | inl response =>
          match httpParseTime env (LastModified response) with
          | inr err =>
              ret (true,
                   Some (Wrapf ("Error parsing last-modified header ["
                                  ++ LastModified response ++ "] for file ["
                                  ++ downloadURL ++ "]. {{err}}") err))
          | inl remoteModTime =>
              (* localModTime.After(remoteModTime) *)
              if remoteModTime <? localModTime then ret (false, None)
              else ret (true, None)
          end
      end
  end.

(** ** [downloadFile] *)

Definition StatusOK : Z := 200.

Definition downloadFile (verboseMode : bool)
    (filename localFilePath downloadMirrorURL : string)
  : M (Z * option error) :=
  let unknownStatus := -1 in
  let downloadURL := downloadMirrorURL ++ "/" ++ filename in
  _ <- (fun w => mkRun w [EvCall filename localFilePath] (Returned tt)) ;;
  t <- TempFile (filename ++ "-") ;;
  let '(output, err) := t in
  ex <- exists_ localFilePath ;;
  early <- (if ex then
              c <- checkIfRemoteIsNewer verboseMode localFilePath downloadURL ;;
              let '(newer, err) := c in
              match err with
              | Some e => ret (Some (unknownStatus, Some e))
              | None =>
                  if newer then ret (Some (unknownStatus, None))
                  else ret None
              end
            else ret None) ;;
  match early with
  | Some r => ret r
  | None =>
      _ <- (if verboseMode then FileName output else ret "") ;;
      match err with
      | Some e =>
          name <- FileName output ;;
          ret (unknownStatus,
               Some (Wrapf ("Unable to create file: [" ++ name ++ "]. {{err}}") e))
      | None =>
          g <- Get downloadURL ;;
          match g with
          | inr e =>
              ret (unknownStatus,
                   Some (Wrapf ("Unable to retrieve file from: ["
                                  ++ downloadURL ++ "]. {{err}}") e))
          | inl response =>
              if negb (StatusCode response =? StatusOK) then
                ret (StatusCode response,
                     Some (errorsNew ("Unable to download file: ["
                                        ++ Status response ++ "]")))
              else
                now <- Now ;;
                let lastModified :=
                  match httpParseTime env (LastModified response) with
                  | inl t => t
                  | inr _ => now
                  end in
                name <- FileName output ;;
                c <- Copy name response ;;
                match c with
                | Some e =>
                    ret (StatusCode response,
                         Some (Wrapf ("Error copying data from URL ["
                                        ++ downloadURL ++ "] to local file ["
                                        ++ localFilePath ++ "]. {{err}}") e))
                | None =>
                    _ <- Rename name localFilePath ;;
                    _ <- Chtimes localFilePath lastModified ;;
                    ret (StatusCode response, None)
                end
          end
      end
  end.

(** ** [updateFile] *)

(** Modelled from the spec: the struct [Signature] is declared outside
    [sigupdate.go]; the spec's artifact is a name and a target version,
    and the program reads the fields [Name] and [Version]. *)
Record Signature : Type := mkSignature {
  Name : string;
  Version : Z
}.

(** [string(filepath.Separator)], on Unix. *)
Definition separator : string := "/".

Inductive LoopExit : Type :=
| LoopEnd                          (* the condition failed *)
| LoopBreak                        (* [break] *)
| LoopReturn (e : option error).   (* [return] from inside the loop *)

Section UpdateFile.

Variables (verboseMode : bool) (dataFilePath sigtoolPath : string)
          (signature : Signature) (downloadMirrorURL : string)
          (diffCountThreshold : Z).

Let filePrefix := Name signature.
Let currentVersion := Version signature.
Let filename := filePrefix ++ ".cvd".
Let localFilePath := dataFilePath ++ separator ++ filename.

Definition diffFilenameOf (count : Z) : string :=
  filePrefix ++ "-" ++ FormatInt count ++ ".cdiff".

Definition localDiffFilePathOf (count : Z) : string :=
  dataFilePath ++ separator ++ diffFilenameOf count.

(** [for count := oldVersion + 1; count <= currentVersion; count++] *)
Fixpoint diffLoop (fuel : nat) (count : Z) : M LoopExit :=
  if count <=? currentVersion then
    match fuel with
    | O => outOfFuel
    | S fuel' =>
        let diffFilename := diffFilenameOf count in
        let localDiffFilePath := localDiffFilePathOf count in
        ex <- exists_ localDiffFilePath ;;
        if ex then diffLoop fuel' (wrap64 (count + 1))
        else
          r <- downloadFile verboseMode diffFilename localDiffFilePath
                 downloadMirrorURL ;;
          match snd r with
          | Some _ =>
              r' <- downloadFile verboseMode filename localFilePath
                      downloadMirrorURL ;;
              match snd r' with
              | Some err => ret (LoopReturn (Some err))
              | None => ret LoopBreak
              end
          | None => diffLoop fuel' (wrap64 (count + 1))
          end
    end
  else ret LoopEnd.

(** The full download as [updateFile] has it in three places:
    [_, err := downloadFile(...)], and the error, if any, returned. *)
Definition fullDownload : M (option error) :=
  r <- downloadFile verboseMode filename localFilePath downloadMirrorURL ;;
  match snd r with
  | Some err => ret (Some err)
  | None => ret None
  end.

(** [diffCountThreshold] is a [uint16] in the program; [fuel] bounds
    the iterations of the loop. *)
Definition updateFile (fuel : nat) : M (option error) :=
  ex <- exists_ localFilePath ;;
  if negb ex then fullDownload
  else
    run <- runSigtool sigtoolPath localFilePath ;;
    p <- liftOutcome (findLocalVersion run) ;;
    let '(oldVersion, err) := p in
    if (match err with Some _ => true | None => false end)
       || (oldVersion <? 0)
    then fullDownload
    else
      x <- diffLoop fuel (wrap64 (oldVersion + 1)) ;;
      match x with
      | LoopReturn e => ret e
      | LoopEnd | LoopBreak =>
          if diffCountThreshold <? wrap64 (currentVersion - oldVersion)
          then fullDownload
          else ret None
      end.

End UpdateFile.

End Program.

(** The [downloadFile] calls of a trace, in order. *)
Fixpoint calls (t : list Event) : list (string * string) :=
  match t with
  | [] => []
  | EvCall f p :: r => (f, p) :: calls r
  | _ :: r => calls r
  end.

(** The URLs of the GET requests of a trace, in order. *)
Fixpoint gets (t : list Event) : list string :=
  match t with
  | [] => []
  | EvGet u _ :: r => u :: gets r
  | _ :: r => gets r
  end.

(** A line of sigtool's output that [findLocalVersion] gets past: it is
    no version line, or it has a field after ["Version: "] that
    [ParseInt] accepts. *)
Definition versionLineOk (line : string) : bool :=
  if HasPrefix line "Version:" then
    match nth_error (SplitAfter line "Version: ") 1 with
    | Some s1 =>
        match ParseInt (TrimSpace s1) with
        | inl _ => true
        | inr _ => false
        end
    | None => false
    end
  else true.

Definition noMarker (line : string) : bool :=
  negb (HasPrefix line "Verification OK").

(** ** The diff walk, as a relation

    [DiffWalk v w attempted failed w'] reads: starting at version [v] in
    world [w], the walk over the versions up to the target one downloads
    the diffs [attempted], in this order, and ends in world [w'];
    [failed] is the version whose download returned an error and ended
    the walk, if any.  A version whose diff file is there when its turn
    comes is passed over. *)

Section Walk.

Variables (env : Env) (verboseMode : bool) (dataFilePath : string)
          (signature : Signature) (downloadMirrorURL : string).

Definition fullName : string := Name signature ++ ".cvd".

Definition fullPath : string := dataFilePath ++ separator ++ fullName.

Definition fullCall : string * string := (fullName, fullPath).

Definition diffCall (v : Z) : string * string :=
  (diffFilenameOf signature v, localDiffFilePathOf dataFilePath signature v).

Definition downloadDiff (v : Z) : M (Z * option error) :=
  downloadFile env verboseMode (diffFilenameOf signature v)
    (localDiffFilePathOf dataFilePath signature v) downloadMirrorURL.

Definition downloadFull : M (Z * option error) :=
  downloadFile env verboseMode fullName fullPath downloadMirrorURL.

Inductive DiffWalk : Z -> World -> list Z -> option Z -> World -> Prop :=
| walk_end v w :
    Version signature < v ->
    DiffWalk v w [] None w
| walk_skip v w attempted failed w' :
    v <= Version signature ->
    fileExists w (localDiffFilePathOf dataFilePath signature v) = true ->
    DiffWalk (v + 1) w attempted failed w' ->
    DiffWalk v w attempted failed w'
| walk_downloaded v w status attempted failed w' :
    v <= Version signature ->
    fileExists w (localDiffFilePathOf dataFilePath signature v) = false ->
    outcome (downloadDiff v w) = Returned (status, None) ->
    DiffWalk (v + 1) (final (downloadDiff v w)) attempted failed w' ->
    DiffWalk v w (v :: attempted) failed w'
| walk_failed v w status err :
    v <= Version signature ->
    fileExists w (localDiffFilePathOf dataFilePath signature v) = false ->
    outcome (downloadDiff v w) = Returned (status, Some err) ->
    DiffWalk v w [v] (Some v) (final (downloadDiff v w)).

(** How the loop is left after the full download that follows a
    failed diff. *)
Definition loopExitOf (err : option error) : LoopExit :=
  match err with
  | Some e => LoopReturn (Some e)
  | None => LoopBreak
  end.

(** The call that follows a failed diff. *)
Definition fallbackCalls (failed : option Z) : list (string * string) :=
  match failed with
  | Some _ => [fullCall]
  | None => []
  end.

(** Whether the full download that follows a failed diff returned an
    error; [w] is the world in which the walk ended. *)
Definition fallbackFailed (failed : option Z) (w : World) : bool :=
  match failed, outcome (downloadFull w) with
  | Some _, Returned (_, Some _) => true
  | _, _ => false
  end.

(** The call of the threshold check, which is reached unless the
    fallback returned an error. *)
Definition refreshCalls (diffCountThreshold oldVersion : Z)
    (failed : option Z) (w : World) : list (string * string) :=
  if (diffCountThreshold <? Version signature - oldVersion)
     && negb (fallbackFailed failed w)
  then [fullCall]
  else [].

End Walk.

(** Temporary files can always be created. *)
Definition tempFilesAvailable (env : Env) : Prop :=
  forall w pfx, exists name, osTempFile env w pfx = inl name.

(** ** A concrete environment for running the model *)

Module Sample.

Definition ok (lm : string) (bodyFails : bool) : Response :=
  mkResponse 200 "200 OK" lm "signatures"
    (if bodyFails then Some (osError "unexpected EOF") else None).

Definition notFound : Response :=
  mkResponse 404 "404 Not Found" "" "" None.

(** Time stamps are written as decimal seconds in the samples. *)
Definition parseTime (s : string) : Z + error :=
  match ParseInt s with
  | inl t => inl t
  | inr _ => inr (osError "parsing time")
  end.

Definition failing (b : bool) (msg : string) : option error :=
  if b then Some (osError msg) else None.

(** A mirror that stamps everything with [lm] and has every URL but
    those in [gone]; temporary files can be created when [tmpOk];
    reading a body, renaming and changing times fail on request; and
    sigtool answers [run]. *)
Definition env (lm : string) (tmpOk : bool) (gone : list string)
    (bodyFails renameFails chtimesFails : bool) (run : SigtoolRun) : Env :=
  mkEnv
    (fun w pfx =>
       if tmpOk then inl ("/tmp/" ++ pfx ++ FormatInt (Z.of_nat (tick w)))
       else inr (osError "no space left on device"))
    (fun _ url =>
       inl (if existsb (String.eqb url) gone then notFound else ok lm false))
    (fun _ url =>
       inl (if existsb (String.eqb url) gone then notFound
            else ok lm bodyFails))
    parseTime
    (fun w => 1000 + Z.of_nat (tick w))
    (fun _ _ _ => failing renameFails "permission denied")
    (fun _ _ _ => failing chtimesFails "operation not permitted")
    (fun _ _ _ => run).

Definition world (l : list (string * File)) : World :=
  mkWorld (list_to_map l) 0.

Definition validated (version : string) : SigtoolRun :=
  mkSigtoolRun None None
    ["File: main.cvd"; "Version: " ++ version; "Verification OK."] None None.

End Sample.

(** ** The start of a run: [findSigtoolPath], [pullTxtRecord] and
    [runSignatureUpdate] *)

(** [strings.Split(s, sep)] for a non-empty [sep]: every piece. *)
Definition Split (s sep : string) : list string :=
  genSplit (String.length s) sep false s.

(** Whether the byte [c] occurs in [s]. *)
Fixpoint hasChar (c : ascii) (s : string) : bool :=
  match s with
  | EmptyString => false
  | String x r => Ascii.eqb x c || hasChar c r
  end.

(** What the start of a run asks of its host besides the oracles of
    [Env]: the DNS, the variable [PATH] and [filepath.Abs]. *)
Record Host : Type := mkHost {
  netLookupTXT : World -> string -> list string + error; (* net.LookupTXT *)
  envPATH : string;                                       (* os.Getenv("PATH") *)
  filepathAbs : string -> string + error                  (* filepath.Abs *)
}.

(** [string(os.PathListSeparator)], on Unix. *)
Definition envPathSeparator : string := ":".

Definition execName : string := "sigtool".

Definition sigtoolNotFound : error :=
  errorsNew ("The ClamAV executable sigtool was not found in the "
               ++ "current directory nor in the system path.").

Section Runner.

Variables (env : Env) (host : Host).

(** [for _, pathElement := range strings.Split(envPath, envPathSeparator)],
    and the error after the loop. *)
Fixpoint searchPath (elements : list string) : M (string * option error) :=
  match elements with
  | [] => ret ("", Some sigtoolNotFound)
  | pathElement :: rest =>
      let execPath := pathElement ++ separator ++ execName in
      ex <- exists_ execPath ;;
      if ex then ret (execPath, None)
      else searchPath rest
  end.

Definition findSigtoolPath : M (string * option error) :=
  let envPath := envPATH host in
  let localPath := "." ++ separator ++ execName in
  ex <- exists_ localPath ;;
  if ex then
    match filepathAbs host localPath with
    | inr err =>
        ret ("", Some (Wrapf ("Error parsing absolute path for ["
                                ++ localPath ++ "]. {{err}}") err))
    | inl execPath => ret (execPath, None)
    end
  else searchPath (Split envPath envPathSeparator).

(** [errwrap.Wrapf(msg, nil)] is an error whose message has ["<nil>"] in
    the place of [{{err}}]. *)
Definition pullTxtRecord (mirrorDomain : string) : M (string * option error) :=
  fun w =>
    mkRun (advance w) []
      (Returned
         match netLookupTXT host w mirrorDomain with
         | inr err =>
             ("", Some (Wrapf ("Unable to resolve TXT record for "
                                 ++ mirrorDomain ++ ". {{err}}") err))
         | inl mirrorTxtRecords =>
             match mirrorTxtRecords with
             | [] =>
                 ("", Some (errorsNew ("No TXT records returned for "
                                         ++ mirrorDomain ++ ". <nil>")))
             | first :: _ => (first, None)
             end
         end).

Section RunSignatureUpdate.

Variables (verboseMode : bool) (dataFilePath downloadMirrorURL : string)
          (diffCountThreshold : Z) (fuel : nat).

(** [for _, signature := range signaturesToUpdate] *)
Fixpoint updateEach (sigtoolPath : string) (signatures : list Signature)
  : M (option error) :=
  match signatures with
  | [] => ret None
  | signature :: rest =>
      err <- updateFile env verboseMode dataFilePath sigtoolPath signature
               downloadMirrorURL diffCountThreshold fuel ;;
      match err with
      | Some e => ret (Some e)
      | None => updateEach sigtoolPath rest
      end
  end.

Definition signaturesToUpdate (versions : SignatureVersions) : list Signature :=
  [ mkSignature "main" (MainVersion versions);
    mkSignature "daily" (DailyVersion versions);
    mkSignature "bytecode" (ByteCodeVersion versions) ].

Definition mirrorDomain : string := "current.cvd.clamav.net".

(** [fuel] bounds the loop of each [updateFile]. *)
Definition runSignatureUpdate : M (option error) :=
  p <- findSigtoolPath ;;
  let '(sigtoolPath, err) := p in
  match err with
  | Some e => ret (Some e)
  | None =>
      t <- pullTxtRecord mirrorDomain ;;
      let '(mirrorTxtRecord, err) := t in
      match err with
      | Some e => ret (Some e)
      | None =>
          v <- liftOutcome (parseTxtRecord mirrorTxtRecord) ;;
          let '(versions, err) := v in
          match err with
          | Some e => ret (Some e)
          | None => updateEach sigtoolPath (signaturesToUpdate versions)
          end
      end
  end.

End RunSignatureUpdate.

End Runner.

(** The version that a line of sigtool's output carries, as
    [findLocalVersion] reads it. *)
Definition lineVersion (line : string) : option Z :=
  if HasPrefix line "Version:" then
    match nth_error (SplitAfter line "Version: ") 1 with
    | Some s1 =>
        match ParseInt (TrimSpace s1) with
        | inl v => Some v
        | inr _ => None
        end
    | None => None
    end
  else None.

(** The version of the last version line, [v0] when there is none. *)
Definition lastVersion (lines : list string) (v0 : Z) : Z :=
  fold_left (fun acc line =>
               match lineVersion line with
               | Some v => v
               | None => acc
               end) lines v0.

(** The bytes of a decimal number: digits and the sign. *)
Definition numeric (c : ascii) : bool :=
  match digit c with
  | Some _ => true
  | None => Ascii.eqb c "-"
  end.

Fixpoint allNumeric (s : string) : bool :=
  match s with
  | EmptyString => true
  | String c r => numeric c && allNumeric r
  end.

(** A line that starts with the validation marker, and a line that is no
    version line. *)
Definition marked (line : string) : bool := HasPrefix line "Verification OK".

Definition plain (line : string) : bool := negb (HasPrefix line "Version:").

(** What [updateFile] keeps of the result of [downloadFile]: the error. *)
Definition errorOf (o : Outcome (Z * option error)) : Outcome (option error) :=
  match o with
  | Returned (_, e) => Returned e
  | Panicked msg => Panicked msg
  | OutOfFuel => OutOfFuel
  end.

(** No sigtool in the directory [dir]. *)
Definition absent (w : World) (dir : string) : Prop :=
  fileExists w (dir ++ separator ++ execName) = false.

(** The artifact [name] is there, and sigtool, whenever it is asked,
    validates it with the version [version]. *)
Definition current (env : Env) (dataFilePath : string) (w : World)
    (sp name : string) (version : Z) : Prop :=
  fileExists w (fullPath dataFilePath (mkSignature name version)) = true /\
  (forall w',
      findLocalVersion
        (sigtool env w' sp (fullPath dataFilePath (mkSignature name version)))
      = Returned (version, None)) /\
  0 <= version < MaxInt64.

Module SampleHost.

(** A mirror that cannot be reached. *)
Definition offline (run : SigtoolRun) : Env :=
  mkEnv
    (fun w pfx => inl ("/tmp/" ++ pfx ++ FormatInt (Z.of_nat (tick w))))
    (fun _ _ => inr (osError "no route to host"))
    (fun _ _ => inr (osError "no route to host"))
    Sample.parseTime
    (fun w => 1000 + Z.of_nat (tick w))
    (fun _ _ _ => None)
    (fun _ _ _ => None)
    (fun _ _ _ => run).

(** A host whose DNS answers [records] and whose [PATH] is [path]. *)
Definition host (records : list string) (path : string) : Host :=
  mkHost (fun _ _ => inl records) path (fun p => inl ("/cwd/" ++ dropn 2 p)).

End SampleHost.

(** * Properties *)

(** ** 64-bit arithmetic *)

Lemma wrap64_small (z : Z) : MinInt64 <= z <= MaxInt64 -> wrap64 z = z.
Proof.
  unfold wrap64, MinInt64, MaxInt64. intros H.
  rewrite Z.mod_small; lia.
Qed.

Lemma wrap64_succ_max : wrap64 (MaxInt64 + 1) = MinInt64.
Proof. reflexivity. Qed.

(** ** [parseTxtRecord] *)

Lemma index_short (s : list string) (i : nat) :
  (length s <= i)%nat -> index s i = Panicked "index out of range".
Proof.
  intros H. unfold index.
  apply nth_error_None in H. rewrite H. reflexivity.
Qed.

(** X29: a record with fewer than eight fields is never parsed with success:
    the eighth field is read whatever the number of fields. *)
Lemma parseTxtRecord_short_not_ok (rec : string) (v : SignatureVersions) :
  (length (SplitN rec ":" 8) < 8)%nat ->
  parseTxtRecord rec <> Returned (v, None).
Proof.
  intros H. unfold parseTxtRecord, parseField, obind.
  rewrite (index_short _ 7) by lia.
  repeat case_match; congruence.
Qed.

(** A record without any colon makes [parseTxtRecord] panic at [s[1]]. *)
Lemma parseTxtRecord_no_colon_panics (rec : string) :
  cut ":" rec = None ->
  parseTxtRecord rec = Panicked "index out of range".
Proof.
  intros H. unfold parseTxtRecord, SplitN, obind. simpl genSplit.
  rewrite H. reflexivity.
Qed.

(** C3, on the code: the record ["0.99.2:57:21723"] has three fields,
    and [parseTxtRecord] does not return an error on it: it panics with
    an index out of range when it reads the seventh field; so it does on
    the empty record, at the second field. *)
Theorem parseTxtRecord_short_record_panics :
  length (SplitN "0.99.2:57:21723" ":" 8) = 3%nat /\
  parseTxtRecord "0.99.2:57:21723" = Panicked "index out of range" /\
  parseTxtRecord "" = Panicked "index out of range".
Proof. vm_compute. auto. Qed.

(** ** [findLocalVersion] *)

Lemma scanLoop_no_marker (lines : list string) :
  forall version,
    forallb noMarker lines = true ->
    forallb versionLineOk lines = true ->
    exists version', scanLoop lines version false
                     = Returned (ScanEnd version' false).
Proof.
  induction lines as [|line rest IH]; intros version Hm Hv.
  - exists version. reflexivity.
  - cbn [forallb] in Hm, Hv.
    apply andb_prop in Hm as [Hm Hm']. apply andb_prop in Hv as [Hv Hv'].
    unfold noMarker in Hm. apply negb_true_iff in Hm.
    cbn [scanLoop]. rewrite Hm.
    unfold versionLineOk in Hv.
    destruct (HasPrefix line "Version:").
    + unfold index.
      destruct (nth_error (SplitAfter line "Version: ") 1) as [s1|];
        [|discriminate].
      cbn [obind].
      destruct (ParseInt (TrimSpace s1)) as [v|]; [|discriminate].
      apply IH; assumption.
    + apply IH; assumption.
Qed.

(** C8, as amended: when sigtool ran, no line of its output starts with
    the marker ["Verification OK"] and every version line has a version
    that parses, [findLocalVersion] returns [-1] and the error "not
    validated", whether or not there was a version line. *)
Theorem findLocalVersion_not_validated (run : SigtoolRun) :
  pipeErr run = None ->
  startErr run = None ->
  forallb noMarker (stdoutLines run) = true ->
  forallb versionLineOk (stdoutLines run) = true ->
  findLocalVersion run = Returned (errVersion, Some notValidated).
Proof.
  intros Hp Hs Hm Hv. unfold findLocalVersion. rewrite Hp, Hs.
  destruct (scanLoop_no_marker _ MinInt64 Hm Hv) as [v' E].
  rewrite E. reflexivity.
Qed.

Lemma findLocalVersion_not_validated_witness :
  findLocalVersion (mkSigtoolRun None None ["File: main.cvd"; "Version: 57"] None None)
  = Returned (errVersion, Some notValidated).
Proof.
  apply findLocalVersion_not_validated; reflexivity.
Defined.

(** C8, as stated, fails: the output ["Version: abc"] has no marker
    line, and the error returned is the one of the conversion. *)
Lemma findLocalVersion_unparsable_version :
  let run := mkSigtoolRun None None ["Version: abc"] None None in
  forallb noMarker (stdoutLines run) = true /\
  findLocalVersion run
  = Returned (errVersion,
              Some (Wrapf "Error converting [abc] to 64-bit integer. {{err}}"
                          (strconvError "ParseInt" "abc" ErrSyntax))) /\
  findLocalVersion run <> Returned (errVersion, Some notValidated).
Proof. vm_compute. repeat split; congruence. Qed.

(** ** [downloadFile] *)

(** Symbolic execution of [downloadFile]: unfold the monad, then split on
    every answer of the environment that the run depends on. *)
Ltac run_simpl :=
  cbv beta iota zeta in *;
  cbn [app final trace outcome fst snd negb files store advance] in *.

Ltac blocked :=
  match goal with
  | |- context [match ?x with _ => _ end] =>
      lazymatch x with
      | context [match _ with _ => _ end] => fail
      | _ => destruct x eqn:?
      end
  | H : context [match ?x with _ => _ end] |- _ =>
      lazymatch x with
      | context [match _ with _ => _ end] => fail
      | _ => destruct x eqn:?
      end
  end.

Ltac run_unfold :=
  unfold downloadFile, checkIfRemoteIsNewer in *;
  unfold TempFile, Head, Get, Copy, Rename, Chtimes, FileName in *;
  unfold bind, ret, panic, exists_, Stat, Now, fileExists in *;
  run_simpl.

Ltac run_all := run_unfold; repeat (blocked; run_simpl).

Ltac in_trace H :=
  cbn [In] in H;
  repeat match type of H with
         | _ \/ _ => destruct H as [H|H]
         end;
  try discriminate H; try contradiction.

Ltac status_ok :=
  repeat match goal with
         | H : (_ =? StatusOK) = true |- _ => apply Z.eqb_eq in H
         end.

Lemma downloadFile_calls (env : Env) (verboseMode : bool)
    (filename localFilePath url : string) (w : World) :
  calls (trace (downloadFile env verboseMode filename localFilePath url w))
  = [(filename, localFilePath)].
Proof. run_all; reflexivity. Qed.

Lemma downloadFile_returns (env : Env) (verboseMode : bool)
    (filename localFilePath url : string) (w : World) :
  tempFilesAvailable env ->
  exists status err,
    outcome (downloadFile env verboseMode filename localFilePath url w)
    = Returned (status, err).
Proof.
  intros Htmp. destruct (Htmp w (filename ++ "-")) as [name Hname].
  run_unfold. rewrite Hname. run_simpl.
  repeat (blocked; run_simpl); eauto.
Qed.

Lemma downloadFile_tempfile_error_panics (env : Env) (verboseMode : bool)
    (filename localFilePath url : string) (w : World) (e : error) :
  osTempFile env w (filename ++ "-") = inr e ->
  fileExists w localFilePath = false ->
  outcome (downloadFile env verboseMode filename localFilePath url w)
  = Panicked "invalid memory address or nil pointer dereference".
Proof.
  intros Htmp Hex. run_unfold. rewrite Htmp. run_simpl. rewrite Hex.
  run_simpl. destruct verboseMode; reflexivity.
Qed.

(** X26: the decision that [downloadFile] takes after a HEAD request with a
    time stamp [t] that parses: it transfers the file when the local copy
    is the newer one ([t < modTime file]), and returns [(-1, nil)] without
    a transfer when it is not. *)
Lemma downloadFile_skip_decision (env : Env) (verboseMode : bool)
    (filename localFilePath url : string) (w : World)
    (tmp : string) (file : File) (resp : Response) (t : Z) :
  let r := downloadFile env verboseMode filename localFilePath url w in
  osTempFile env w (filename ++ "-") = inl tmp ->
  tmp <> localFilePath ->
  files w !! localFilePath = Some file ->
  In (EvHead (url ++ "/" ++ filename) (inl resp)) (trace r) ->
  httpParseTime env (LastModified resp) = inl t ->
  if t <? modTime file then gets (trace r) = [url ++ "/" ++ filename]
  else gets (trace r) = [] /\ outcome r = Returned (-1, None).
Proof.
  intros r Htmp Hne Hf Hin Hpt. subst r.
  run_unfold. rewrite Htmp in *. run_simpl.
  rewrite lookup_insert_ne, Hf in * by assumption. run_simpl.
  repeat (blocked; run_simpl).
  all: in_trace Hin.
  all: repeat match goal with
              | H : context [<[_:=_]> _ !! _] |- _ =>
                  rewrite lookup_insert_ne in H by assumption
              end.
  all: simplify_eq.
  all: try congruence.
  all: auto.
Qed.

(** C1, on the code: with a local copy stamped [200] and a remote
    [Last-Modified] of [100] that parses, the local copy is strictly the
    newer one and [downloadFile] still sends the GET request and replaces
    the file; with a remote [Last-Modified] of [300] the remote copy is
    the newer one and [downloadFile] returns [(-1, nil)] without a GET
    request. *)
Theorem downloadFile_skip_is_inverted :
  let run lm :=
    downloadFile (Sample.env lm true [] false false false (Sample.validated "57"))
      false "main.cvd" "/data/main.cvd" "http://mirror"
      (Sample.world [("/data/main.cvd", mkFile 200 "old")]) in
  (gets (trace (run "100")) = ["http://mirror/main.cvd"] /\
   outcome (run "100") = Returned (200, None) /\
   files (final (run "100")) !! "/data/main.cvd" = Some (mkFile 100 "signatures"))
  /\
  (gets (trace (run "300")) = [] /\
   outcome (run "300") = Returned (-1, None) /\
   files (final (run "300")) !! "/data/main.cvd" = Some (mkFile 200 "old")).
Proof. vm_compute. repeat split. Qed.

(** C2, as amended: when the local file exists and the HEAD request is
    answered with a [Last-Modified] header that does not parse,
    [downloadFile] returns the status [-1] and the wrapped parse error,
    and sends no GET request. *)
Theorem downloadFile_head_unparsable (env : Env) (verboseMode : bool)
    (filename localFilePath url : string) (w : World)
    (resp : Response) (e : error) :
  let r := downloadFile env verboseMode filename localFilePath url w in
  fileExists w localFilePath = true ->
  In (EvHead (url ++ "/" ++ filename) (inl resp)) (trace r) ->
  httpParseTime env (LastModified resp) = inr e ->
  outcome r
  = Returned (-1, Some (Wrapf ("Error parsing last-modified header ["
                                 ++ LastModified resp ++ "] for file ["
                                 ++ (url ++ "/" ++ filename) ++ "]. {{err}}") e))
  /\ gets (trace r) = [].
Proof.
  intros r Hex Hin Hpt. subst r.
  run_all.
  all: in_trace Hin.
  all: simplify_eq; first [congruence | split; [congruence | reflexivity]].
Qed.

Lemma downloadFile_head_unparsable_witness :
  let env := Sample.env "tomorrow" true [] false false false (Sample.validated "57") in
  let w := Sample.world [("/data/main.cvd", mkFile 200 "old")] in
  let r := downloadFile env false "main.cvd" "/data/main.cvd" "http://mirror" w in
  outcome r
  = Returned (-1, Some (Wrapf "Error parsing last-modified header [tomorrow] for file [http://mirror/main.cvd]. {{err}}"
                              (osError "parsing time")))
  /\ gets (trace r) = [].
Proof.
  apply (downloadFile_head_unparsable
           (Sample.env "tomorrow" true [] false false false (Sample.validated "57"))
           false "main.cvd" "/data/main.cvd" "http://mirror"
           (Sample.world [("/data/main.cvd", mkFile 200 "old")])
           (Sample.ok "tomorrow" false) (osError "parsing time")).
  - reflexivity.
  - vm_compute. auto 10.
  - reflexivity.
Defined.

(** C2, as stated, fails: the local file exists, the HEAD request
    succeeds with the header ["not a date"], and [downloadFile] returns
    an error without any GET request. *)
Lemma downloadFile_head_unparsable_no_transfer :
  let env := Sample.env "not a date" true [] false false false (Sample.validated "57") in
  let w := Sample.world [("/data/daily.cvd", mkFile 200 "old")] in
  let r := downloadFile env false "daily.cvd" "/data/daily.cvd" "http://mirror" w in
  fileExists w "/data/daily.cvd" = true /\
  In (EvHead "http://mirror/daily.cvd" (inl (Sample.ok "not a date" false))) (trace r) /\
  httpParseTime env "not a date" = inr (osError "parsing time") /\
  gets (trace r) = [] /\
  outcome r
  = Returned (-1, Some (Wrapf "Error parsing last-modified header [not a date] for file [http://mirror/daily.cvd]. {{err}}"
                              (osError "parsing time"))).
Proof. vm_compute. repeat split. auto 10. Qed.



(** C9: what [os.Rename] and [os.Chtimes] answer does not reach the
    caller.  Once the body is copied and the renaming attempted,
    [downloadFile] returns the status 200 and no error, whatever the two
    calls answered; when the renaming failed, the contents at
    [localFilePath] are the ones from before the call, and when
    [os.Chtimes] failed as well, the whole file at [localFilePath] is the
    one from before the call. *)
Theorem downloadFile_ignores_rename_and_chtimes (env : Env)
    (verboseMode : bool) (filename localFilePath url : string) (w : World)
    (tmp : string) (res : option error) :
  let r := downloadFile env verboseMode filename localFilePath url w in
  In (EvRename tmp localFilePath res) (trace r) ->
  tmp <> localFilePath ->
  outcome r = Returned (StatusOK, None)
  /\ (forall e, res = Some e ->
        contents <$> files (final r) !! localFilePath
        = contents <$> files w !! localFilePath)
  /\ (forall e t e', res = Some e ->
        In (EvChtimes localFilePath t (Some e')) (trace r) ->
        files (final r) !! localFilePath = files w !! localFilePath).
Proof.
  intros r Hin Hne. subst r.
  run_all.
  all: in_trace Hin.
  all: simplify_eq.
  all: match goal with
       | H : negb _ = false |- _ => apply negb_false_iff, Z.eqb_eq in H
       end.
  all: split; [congruence | split].
  all: try (intros ? ? ? ? Hc; simplify_eq; in_trace Hc).
  all: try (intros ? ?; simplify_eq).
  all: repeat match goal with
              | H : context [<[_:=_]> _ !! _] |- _ =>
                  rewrite ?lookup_insert_eq, ?lookup_insert_ne in H by assumption
              end.
  all: repeat rewrite ?lookup_insert_eq, ?lookup_insert_ne by assumption.
  all: try reflexivity.
  all: try (cbn [fmap option_fmap option_map]; congruence).
  all: match goal with
       | H : files _ !! _ = Some _ |- _ => rewrite H; reflexivity
       end.
Qed.

Lemma downloadFile_ignores_rename_and_chtimes_witness :
  let env := Sample.env "100" true [] false true true (Sample.validated "57") in
  let w := Sample.world [("/data/main.cvd", mkFile 200 "old")] in
  let r := downloadFile env false "main.cvd" "/data/main.cvd" "http://mirror" w in
  outcome r = Returned (StatusOK, None)
  /\ (forall e, Some (osError "permission denied") = Some e ->
        contents <$> files (final r) !! "/data/main.cvd"
        = contents <$> files w !! "/data/main.cvd")
  /\ (forall e t e', Some (osError "permission denied") = Some e ->
        In (EvChtimes "/data/main.cvd" t (Some e')) (trace r) ->
        files (final r) !! "/data/main.cvd" = files w !! "/data/main.cvd").
Proof.
  apply (downloadFile_ignores_rename_and_chtimes
           (Sample.env "100" true [] false true true (Sample.validated "57"))
           false "main.cvd" "/data/main.cvd" "http://mirror"
           (Sample.world [("/data/main.cvd", mkFile 200 "old")])
           "/tmp/main.cvd-0" (Some (osError "permission denied"))).
  - vm_compute. auto 10.
  - discriminate.
Defined.

(** C10, on the code: when the temporary file cannot be created and
    there is no local file, [downloadFile] does not return: building the
    error message dereferences the nil file handle, and the call panics
    before any request. *)
Theorem downloadFile_tempfile_error_crashes :
  let env := Sample.env "100" false [] false false false (Sample.validated "57") in
  let r := downloadFile env false "main.cvd" "/data/main.cvd" "http://mirror"
             (Sample.world []) in
  osTempFile env (Sample.world []) "main.cvd-"
  = inr (osError "no space left on device") /\
  outcome r = Panicked "invalid memory address or nil pointer dereference" /\
  trace r = [EvCall "main.cvd" "/data/main.cvd";
             EvTempFile "main.cvd-" (inr (osError "no space left on device"))].
Proof. vm_compute. repeat split. Qed.
(** ** The monad *)

(** Running [bind] when the first computation returns. *)
Lemma bind_returned {A B} (m : M A) (k : A -> M B) (w : World) (a : A) :
  outcome (m w) = Returned a ->
  bind m k w
  = mkRun (final (k a (final (m w))))
          (trace (m w) ++ trace (k a (final (m w))))
          (outcome (k a (final (m w)))).
Proof.
  unfold bind. destruct (m w) as [w1 t1 o]. cbn [outcome final trace].
  intros ->. destruct (k a w1); reflexivity.
Qed.

Lemma bind_pure {A B} (m : M A) (k : A -> M B) (w : World) (a : A) :
  m w = mkRun w [] (Returned a) ->
  bind m k w = k a w.
Proof.
  unfold bind. intros ->. destruct (k a w); reflexivity.
Qed.

Lemma calls_app (t1 t2 : list Event) :
  calls (t1 ++ t2) = (calls t1 ++ calls t2)%list.
Proof.
  induction t1 as [|e t1 IH]; [reflexivity|].
  destruct e; cbn [calls app]; rewrite IH; reflexivity.
Qed.

(** ** [updateFile] *)

Section UpdateFileProofs.

Variables (env : Env) (verboseMode : bool) (dataFilePath sigtoolPath : string)
          (signature : Signature) (downloadMirrorURL : string).

Abbreviation walk := (DiffWalk env verboseMode dataFilePath signature downloadMirrorURL).
Abbreviation loop := (diffLoop env verboseMode dataFilePath signature downloadMirrorURL).
Abbreviation getDiff := (downloadDiff env verboseMode dataFilePath signature downloadMirrorURL).
Abbreviation getFull := (downloadFull env verboseMode dataFilePath signature downloadMirrorURL).

(** The loop, unfolded once. *)
Lemma diffLoop_end (fuel : nat) (count : Z) (w : World) :
  Version signature < count ->
  loop fuel count w = mkRun w [] (Returned LoopEnd).
Proof.
  intros H. apply Z.leb_gt in H.
  destruct fuel; cbn [diffLoop]; rewrite H; reflexivity.
Qed.

Lemma diffLoop_step (fuel : nat) (count : Z) :
  count <= Version signature ->
  loop (S fuel) count
  = (ex <- exists_ (localDiffFilePathOf dataFilePath signature count) ;;
     if ex then loop fuel (wrap64 (count + 1))
     else
       r <- getDiff count ;;
       match snd r with
       | Some _ =>
           r' <- getFull ;;
           match snd r' with
           | Some err => ret (LoopReturn (Some err))
           | None => ret LoopBreak
           end
       | None => loop fuel (wrap64 (count + 1))
       end).
Proof.
  intros H. apply Z.leb_le in H.
  cbn [diffLoop]. rewrite H. reflexivity.
Qed.

(** With enough fuel for the versions that are left, and a target
    version below the largest [int64], the loop performs a diff walk:
    its calls are the attempted diffs, then the fallback if a diff
    failed. *)
Lemma diffLoop_walk :
  tempFilesAvailable env ->
  Version signature < MaxInt64 ->
  forall (fuel : nat) (count : Z) (w : World),
    MinInt64 <= count ->
    Version signature - count < Z.of_nat fuel ->
    exists attempted failed w1,
      walk count w attempted failed w1 /\
      calls (trace (loop fuel count w))
      = (map (diffCall dataFilePath signature) attempted
         ++ fallbackCalls dataFilePath signature failed)%list /\
      match failed with
      | None =>
          final (loop fuel count w) = w1 /\
          outcome (loop fuel count w) = Returned LoopEnd
      | Some _ =>
          final (loop fuel count w) = final (getFull w1) /\
          exists status e,
            outcome (getFull w1) = Returned (status, e) /\
            outcome (loop fuel count w) = Returned (loopExitOf e)
      end.
Proof.
  intros Htmp Hmax fuel.
  induction fuel as [|fuel IH]; intros count w Hmin Hfuel.
  - exists [], None, w. rewrite diffLoop_end by lia.
    split; [constructor; lia | auto].
  - destruct (Z.lt_ge_cases (Version signature) count) as [Hgt|Hle].
    { exists [], None, w. rewrite diffLoop_end by lia.
      split; [constructor; lia | auto]. }
    rewrite diffLoop_step by assumption.
    rewrite (bind_pure _ _ w (fileExists w (localDiffFilePathOf dataFilePath signature count)))
      by reflexivity.
    rewrite wrap64_small by (unfold MinInt64, MaxInt64 in *; lia).
    destruct (fileExists w (localDiffFilePathOf dataFilePath signature count)) eqn:Hex.
    + destruct (IH (count + 1) w) as (att & failed & w1 & Hw & Hc & Hr);
        [lia | lia |].
      exists att, failed, w1. split; [|auto].
      eapply walk_skip; eassumption.
    + destruct (downloadFile_returns env verboseMode
                  (diffFilenameOf signature count)
                  (localDiffFilePathOf dataFilePath signature count)
                  downloadMirrorURL w Htmp) as (status & e & Hout).
      fold (getDiff count) in Hout.
      rewrite (bind_returned _ _ w _ Hout). cbn [snd final trace outcome].
      destruct e as [err|].
      * destruct (downloadFile_returns env verboseMode
                    (fullName signature) (fullPath dataFilePath signature)
                    downloadMirrorURL (final (getDiff count w)) Htmp)
          as (status' & e' & Hout').
        fold getFull in Hout'.
        exists [count], (Some count), (final (getDiff count w)).
        split; [eapply walk_failed; eassumption|].
        rewrite (bind_returned _ _ _ _ Hout'). cbn [snd final trace outcome].
        rewrite !calls_app.
        unfold downloadDiff, downloadFull. rewrite !downloadFile_calls.
        split; [destruct e'; reflexivity|].
        split; [destruct e'; reflexivity|].
        exists status', e'. split; [assumption|].
        destruct e'; reflexivity.
      * destruct (IH (count + 1) (final (getDiff count w)))
          as (att & failed & w1 & Hw & Hc & Hr); [lia | lia |].
        exists (count :: att), failed, w1.
        split; [eapply walk_downloaded; eassumption|].
        rewrite calls_app, Hc.
        unfold downloadDiff at 1. rewrite downloadFile_calls.
        split; [reflexivity|].
        destruct failed; exact Hr.
Qed.

Abbreviation getFullOrError :=
  (fullDownload env verboseMode dataFilePath signature downloadMirrorURL).

Lemma fullDownload_run (w : World) :
  tempFilesAvailable env ->
  exists status e,
    outcome (getFull w) = Returned (status, e) /\
    outcome (getFullOrError w) = Returned e /\
    final (getFullOrError w) = final (getFull w) /\
    calls (trace (getFullOrError w)) = [fullCall dataFilePath signature].
Proof.
  intros Htmp.
  destruct (downloadFile_returns env verboseMode
              (fullName signature) (fullPath dataFilePath signature)
              downloadMirrorURL w Htmp) as (status & e & Hout).
  exists status, e. split; [exact Hout|].
  unfold fullDownload. rewrite (bind_returned _ _ _ _ Hout).
  cbn [snd final trace outcome]. rewrite calls_app, downloadFile_calls.
  destruct e; repeat split.
Qed.

(** The diffs of a walk are attempted in increasing order of version,
    and a failed one is the last. *)
Lemma DiffWalk_increasing (v : Z) (w : World) (attempted : list Z)
    (failed : option Z) (w' : World) :
  walk v w attempted failed w' ->
  Forall (fun x => v <= x <= Version signature) attempted /\
  StronglySorted Z.lt attempted /\
  match failed with
  | Some x => last attempted = Some x
  | None => True
  end.
Proof.
  induction 1 as [v w Hv | v w att failed w' Hv Hex Hw IH
                 | v w status att failed w' Hv Hex Hout Hw IH
                 | v w status err Hv Hex Hout].
  - repeat split; constructor.
  - destruct IH as (Hall & Hs & Hl). repeat split; [|assumption..].
    eapply Forall_impl; [exact Hall|]. cbn. intros; lia.
  - destruct IH as (Hall & Hs & Hl). repeat split.
    + constructor; [lia|]. eapply Forall_impl; [exact Hall|].
      cbn. intros; lia.
    + constructor; [assumption|]. eapply Forall_impl; [exact Hall|].
      cbn. intros; lia.
    + destruct failed as [x|]; [|exact I].
      destruct att as [|y att]; [discriminate Hl|].
      rewrite last_cons, Hl. reflexivity.
  - repeat split; repeat constructor; lia.
Qed.

(** The calls of [updateFile] after a probe that gave a version below
    the target one: those of a diff walk, then the fallback, then the
    call of the threshold check. *)
Lemma updateFile_walk_calls (diffCountThreshold : Z) (w : World) (old : Z) :
  tempFilesAvailable env ->
  fileExists w (fullPath dataFilePath signature) = true ->
  findLocalVersion (sigtool env w sigtoolPath (fullPath dataFilePath signature))
  = Returned (old, None) ->
  0 <= old < Version signature ->
  Version signature < MaxInt64 ->
  let r := updateFile env verboseMode dataFilePath sigtoolPath signature
             downloadMirrorURL diffCountThreshold
             (Z.to_nat (Version signature - old)) w in
  exists attempted failed w1,
    walk (old + 1) (advance w) attempted failed w1 /\
    calls (trace r)
    = (map (diffCall dataFilePath signature) attempted
       ++ fallbackCalls dataFilePath signature failed
       ++ refreshCalls env verboseMode dataFilePath signature
            downloadMirrorURL diffCountThreshold old failed w1)%list /\
    exists e, outcome r = Returned e.
Proof.
  intros Htmp Hex Hprobe Hold Hmax r. subst r.
  destruct (diffLoop_walk Htmp Hmax (Z.to_nat (Version signature - old))
              (old + 1) (advance w)) as (att & failed & w1 & Hw & Hc & Hr).
  { unfold MinInt64. lia. }
  { lia. }
  exists att, failed, w1. split; [exact Hw|].
  unfold updateFile.
  rewrite (bind_pure _ _ w (fileExists w (fullPath dataFilePath signature)))
    by reflexivity.
  rewrite Hex. cbn [negb].
  rewrite (bind_returned _ _ w
             (sigtool env w sigtoolPath (fullPath dataFilePath signature)))
    by reflexivity.
  cbn [runSigtool final trace outcome].
  rewrite Hprobe.
  rewrite (bind_pure _ _ (advance w) (old, None)) by reflexivity.
  cbn [orb]. replace (old <? 0) with false by (symmetry; apply Z.ltb_ge; lia).
  rewrite !wrap64_small by (unfold MinInt64, MaxInt64 in *; lia).
  unfold refreshCalls, fallbackFailed.
  destruct failed as [x|].
  - destruct Hr as (Hfin & status & e & Hfull & Hout).
    rewrite (bind_returned _ _ _ _ Hout). cbn [final trace outcome calls app].
    rewrite calls_app, Hc, Hfull, Hfin.
    destruct e as [err|]; cbn [loopExitOf negb andb].
    + rewrite andb_false_r. cbn [ret trace outcome calls].
      rewrite !app_nil_r. eauto.
    + rewrite andb_true_r.
      destruct (diffCountThreshold <? Version signature - old).
      * destruct (fullDownload_run (final (getFull w1)) Htmp)
          as (status' & e' & _ & Hout' & _ & Hcalls).
        rewrite Hcalls, Hout', <- app_assoc. eauto.
      * cbn [ret trace outcome calls]. rewrite !app_nil_r. eauto.
  - destruct Hr as (Hfin & Hout).
    rewrite (bind_returned _ _ _ _ Hout). cbn [final trace outcome calls app].
    rewrite calls_app, Hc, Hfin. cbn [negb]. rewrite andb_true_r.
    destruct (diffCountThreshold <? Version signature - old).
    + destruct (fullDownload_run w1 Htmp)
        as (status' & e' & _ & Hout' & _ & Hcalls).
      rewrite Hcalls, Hout', <- app_assoc. eauto.
    + cbn [ret trace outcome calls]. rewrite !app_nil_r. eauto.
Qed.

(** C4, as amended: for a local file that exists, whose probe returns
    the version [old] with [0 <= old < Version signature], a target
    version below the largest [int64] and an environment in which
    temporary files can be created, [updateFile] returns, and its
    [downloadFile] calls are: the diffs of a walk from [old + 1] up to
    the target version, in increasing order, without those whose file is
    there when their turn comes; after the first diff that fails, at once
    the full file and no further diff; and last, one more call for the
    full file when [Version signature - old] exceeds the threshold and
    the fallback, if there was one, returned no error. *)
Theorem updateFile_diff_walk (diffCountThreshold : Z) (w : World) (old : Z) :
  tempFilesAvailable env ->
  fileExists w (fullPath dataFilePath signature) = true ->
  findLocalVersion (sigtool env w sigtoolPath (fullPath dataFilePath signature))
  = Returned (old, None) ->
  0 <= old < Version signature ->
  Version signature < MaxInt64 ->
  let r := updateFile env verboseMode dataFilePath sigtoolPath signature
             downloadMirrorURL diffCountThreshold
             (Z.to_nat (Version signature - old)) w in
  exists attempted failed w1,
    walk (old + 1) (advance w) attempted failed w1 /\
    Forall (fun v => old < v <= Version signature) attempted /\
    StronglySorted Z.lt attempted /\
    match failed with
    | Some v => last attempted = Some v
    | None => True
    end /\
    calls (trace r)
    = (map (diffCall dataFilePath signature) attempted
       ++ fallbackCalls dataFilePath signature failed
       ++ refreshCalls env verboseMode dataFilePath signature
            downloadMirrorURL diffCountThreshold old failed w1)%list /\
    exists e, outcome r = Returned e.
Proof.
  intros Htmp Hex Hprobe Hold Hmax r.
  destruct (updateFile_walk_calls diffCountThreshold w old
              Htmp Hex Hprobe Hold Hmax)
    as (att & failed & w1 & Hw & Hc & Hret).
  destruct (DiffWalk_increasing _ _ _ _ _ Hw) as (Hall & Hs & Hlast).
  exists att, failed, w1.
  split; [exact Hw|].
  split; [eapply Forall_impl; [exact Hall|]; cbn; intros; lia|].
  split; [exact Hs|].
  split; [exact Hlast|].
  split; [exact Hc | exact Hret].
Qed.

(** X27: away from the crash on a temporary file that cannot be created and
    from a target version equal to the largest [int64], a version gap
    above the threshold makes a call for the full file the last call of
    [updateFile]. *)
Lemma updateFile_threshold_refresh (diffCountThreshold : Z) (w : World)
    (old : Z) :
  tempFilesAvailable env ->
  fileExists w (fullPath dataFilePath signature) = true ->
  findLocalVersion (sigtool env w sigtoolPath (fullPath dataFilePath signature))
  = Returned (old, None) ->
  0 <= old ->
  0 <= diffCountThreshold < Version signature - old ->
  Version signature < MaxInt64 ->
  last (calls (trace (updateFile env verboseMode dataFilePath sigtoolPath
                        signature downloadMirrorURL diffCountThreshold
                        (Z.to_nat (Version signature - old)) w)))
  = Some (fullCall dataFilePath signature).
Proof.
  intros Htmp Hex Hprobe Hold Hthr Hmax.
  destruct (updateFile_walk_calls diffCountThreshold w old Htmp Hex Hprobe)
    as (att & failed & w1 & Hw & Hc & _); [lia | assumption |].
  rewrite Hc. unfold refreshCalls.
  replace (diffCountThreshold <? Version signature - old) with true
    by (symmetry; apply Z.ltb_lt; lia).
  cbn [andb].
  destruct (fallbackFailed env verboseMode dataFilePath signature
              downloadMirrorURL failed w1) eqn:Hfb; cbn [negb].
  - unfold fallbackFailed in Hfb. destruct failed; [|discriminate].
    cbn [fallbackCalls]. rewrite app_nil_r. apply last_snoc.
  - rewrite app_assoc. apply last_snoc.
Qed.

(** C6, as amended: for a local file that exists and whose probe returns
    the target version, when this version is not negative and is below
    the largest [int64], [updateFile] calls [downloadFile] not once,
    leaves the files as they are and returns no error, whatever the
    fuel. *)
Theorem updateFile_up_to_date (diffCountThreshold : Z) (fuel : nat)
    (w : World) :
  fileExists w (fullPath dataFilePath signature) = true ->
  findLocalVersion (sigtool env w sigtoolPath (fullPath dataFilePath signature))
  = Returned (Version signature, None) ->
  0 <= Version signature < MaxInt64 ->
  0 <= diffCountThreshold ->
  let r := updateFile env verboseMode dataFilePath sigtoolPath signature
             downloadMirrorURL diffCountThreshold fuel w in
  calls (trace r) = [] /\
  gets (trace r) = [] /\
  outcome r = Returned None /\
  files (final r) = files w.
Proof.
  intros Hex Hprobe Hv Hthr r. subst r.
  unfold updateFile.
  rewrite (bind_pure _ _ w (fileExists w (fullPath dataFilePath signature)))
    by reflexivity.
  rewrite Hex. cbn [negb].
  rewrite (bind_returned _ _ w
             (sigtool env w sigtoolPath (fullPath dataFilePath signature)))
    by reflexivity.
  cbn [runSigtool final trace outcome].
  rewrite Hprobe.
  rewrite (bind_pure _ _ (advance w) (Version signature, None)) by reflexivity.
  cbn [orb].
  replace (Version signature <? 0) with false
    by (symmetry; apply Z.ltb_ge; lia).
  rewrite wrap64_small by (unfold MinInt64, MaxInt64 in *; lia).
  rewrite (bind_pure _ _ (advance w) LoopEnd) by (apply diffLoop_end; lia).
  rewrite Z.sub_diag.
  replace (diffCountThreshold <? wrap64 0) with false
    by (symmetry; apply Z.ltb_ge; exact Hthr).
  repeat split.
Qed.

End UpdateFileProofs.

(** ** [updateFile] on concrete runs *)

Lemma updateFile_diff_walk_witness :
  let env := Sample.env "100" true ["http://mirror/main-7.cdiff"]
               false false false (Sample.validated "5") in
  let w := Sample.world [("/data/main.cvd", mkFile 200 "old");
                         ("/data/main-6.cdiff", mkFile 150 "diff")] in
  let sig := mkSignature "main" 8 in
  let r := updateFile env false "/data" "/usr/bin/sigtool" sig "http://mirror"
             100 (Z.to_nat (Version sig - 5)) w in
  exists attempted failed w1,
    DiffWalk env false "/data" sig "http://mirror" (5 + 1) (advance w)
      attempted failed w1 /\
    Forall (fun v => 5 < v <= Version sig) attempted /\
    StronglySorted Z.lt attempted /\
    match failed with
    | Some v => last attempted = Some v
    | None => True
    end /\
    calls (trace r)
    = (map (diffCall "/data" sig) attempted
       ++ fallbackCalls "/data" sig failed
       ++ refreshCalls env false "/data" sig "http://mirror" 100 5 failed w1)%list /\
    exists e, outcome r = Returned e.
Proof.
  apply (updateFile_diff_walk
           (Sample.env "100" true ["http://mirror/main-7.cdiff"]
              false false false (Sample.validated "5"))
           false "/data" "/usr/bin/sigtool" (mkSignature "main" 8)
           "http://mirror" 100
           (Sample.world [("/data/main.cvd", mkFile 200 "old");
                          ("/data/main-6.cdiff", mkFile 150 "diff")])
           5).
  - intros w pfx. eexists. reflexivity.
  - reflexivity.
  - reflexivity.
  - cbn. lia.
  - reflexivity.
Defined.

(** C4, as stated, fails: the probe returns version 5, the target is
    120 and the threshold 100; the diff of version 6 is not on the mirror
    and its download fails.  Two calls for the full file follow, the
    fallback and the one of the threshold check, not exactly one. *)
Lemma updateFile_fallback_then_refresh :
  let env := Sample.env "100" true ["http://mirror/main-6.cdiff"]
               false false false (Sample.validated "5") in
  let w := Sample.world [("/data/main.cvd", mkFile 200 "old")] in
  let sig := mkSignature "main" 120 in
  let r := updateFile env false "/data" "/usr/bin/sigtool" sig "http://mirror"
             100 115 w in
  fileExists w "/data/main.cvd" = true /\
  findLocalVersion (sigtool env w "/usr/bin/sigtool" "/data/main.cvd")
  = Returned (5, None) /\
  outcome (downloadDiff env false "/data" sig "http://mirror" 6 (advance w))
  = Returned (404, Some (errorsNew "Unable to download file: [404 Not Found]")) /\
  calls (trace r)
  = [("main-6.cdiff", "/data/main-6.cdiff");
     ("main.cvd", "/data/main.cvd");
     ("main.cvd", "/data/main.cvd")] /\
  outcome r = Returned None.
Proof. vm_compute. repeat split. Qed.

(** C5, on the code: the probe returns version 5, the target is 120 and
    the threshold 100, so the gap exceeds the threshold; the temporary
    file for the first diff cannot be created.  [updateFile] does not
    reach the threshold check: the diff download panics, and the only
    [downloadFile] call of the run is the one for the diff. *)
Theorem updateFile_refresh_lost_by_crash :
  let env := Sample.env "100" false [] false false false (Sample.validated "5") in
  let w := Sample.world [("/data/main.cvd", mkFile 200 "old")] in
  let sig := mkSignature "main" 120 in
  let r := updateFile env false "/data" "/usr/bin/sigtool" sig "http://mirror"
             100 115 w in
  fileExists w "/data/main.cvd" = true /\
  findLocalVersion (sigtool env w "/usr/bin/sigtool" "/data/main.cvd")
  = Returned (5, None) /\
  100 < Version sig - 5 /\
  calls (trace r) = [("main-6.cdiff", "/data/main-6.cdiff")] /\
  outcome r = Panicked "invalid memory address or nil pointer dereference".
Proof. vm_compute. repeat split. Qed.

Lemma updateFile_up_to_date_witness :
  let env := Sample.env "100" true [] false false false (Sample.validated "57") in
  let w := Sample.world [("/data/main.cvd", mkFile 200 "old")] in
  let sig := mkSignature "main" 57 in
  let r := updateFile env false "/data" "/usr/bin/sigtool" sig "http://mirror"
             100 0 w in
  calls (trace r) = [] /\
  gets (trace r) = [] /\
  outcome r = Returned None /\
  files (final r) = files w.
Proof.
  apply (updateFile_up_to_date
           (Sample.env "100" true [] false false false (Sample.validated "57"))
           false "/data" "/usr/bin/sigtool" (mkSignature "main" 57)
           "http://mirror" 100 0%nat
           (Sample.world [("/data/main.cvd", mkFile 200 "old")])).
  - reflexivity.
  - reflexivity.
  - cbn. unfold MaxInt64. lia.
  - lia.
Defined.

(** C6, as stated, fails: sigtool validates the file and reports the
    version [-3], which is also the target version; the probe returns
    [(-3, nil)], and [updateFile] calls [downloadFile] for the full
    file. *)
Lemma updateFile_negative_version_downloads :
  let env := Sample.env "100" true [] false false false (Sample.validated "-3") in
  let w := Sample.world [("/data/main.cvd", mkFile 200 "old")] in
  let sig := mkSignature "main" (-3) in
  let r := updateFile env false "/data" "/usr/bin/sigtool" sig "http://mirror"
             100 0 w in
  fileExists w "/data/main.cvd" = true /\
  findLocalVersion (sigtool env w "/usr/bin/sigtool" "/data/main.cvd")
  = Returned (Version sig, None) /\
  calls (trace r) = [("main.cvd", "/data/main.cvd")] /\
  calls (trace r) <> [].
Proof. vm_compute. repeat split. discriminate. Qed.

(** At the largest [int64] the loop counter wraps around: with the probed
    version equal to the target version [MaxInt64], the walk starts at
    [MinInt64] and asks for diffs. *)
Lemma updateFile_max_version_wraps :
  let env := Sample.env "100" true [] false false false
               (Sample.validated "9223372036854775807") in
  let w := Sample.world [("/data/main.cvd", mkFile 200 "old")] in
  let sig := mkSignature "main" MaxInt64 in
  let r := updateFile env false "/data" "/usr/bin/sigtool" sig "http://mirror"
             100 2 w in
  findLocalVersion (sigtool env w "/usr/bin/sigtool" "/data/main.cvd")
  = Returned (Version sig, None) /\
  calls (trace r)
  = [("main--9223372036854775808.cdiff", "/data/main--9223372036854775808.cdiff");
     ("main--9223372036854775807.cdiff", "/data/main--9223372036854775807.cdiff")] /\
  outcome r = OutOfFuel.
Proof. vm_compute. repeat split. Qed.

(** ** The largest target version *)

(** A wrapped result is an [int64]. *)
Lemma wrap64_range (z : Z) : MinInt64 <= wrap64 z <= MaxInt64.
Proof.
  unfold wrap64, MinInt64, MaxInt64.
  pose proof (Z.mod_pos_bound (z + 2 ^ 63) (2 ^ 64) ltac:(lia)). lia.
Qed.

Lemma bind_outcome {A B} (m : M A) (k : A -> M B) (w : World) :
  outcome (bind m k w)
  = match outcome (m w) with
    | Returned a => outcome (k a (final (m w)))
    | Panicked msg => Panicked msg
    | OutOfFuel => OutOfFuel
    end.
Proof.
  unfold bind. destruct (m w) as [w1 t1 [a|msg|]]; cbn [outcome final];
    [destruct (k a w1)|..]; reflexivity.
Qed.

Section MaxVersion.

Variables (env : Env) (verboseMode : bool) (dataFilePath sigtoolPath : string)
          (signature : Signature) (downloadMirrorURL : string).

Hypothesis target_max : Version signature = MaxInt64.

Hypothesis diffs_served :
  forall v w,
    fileExists w (localDiffFilePathOf dataFilePath signature v) = false ->
    exists status,
      outcome (downloadDiff env verboseMode dataFilePath signature
                 downloadMirrorURL v w)
      = Returned (status, None).

(** With the largest [int64] as target version the loop condition
    [count <= currentVersion] holds for every counter; when no diff
    download fails, no amount of fuel lets the loop end. *)
Lemma diffLoop_never_ends (fuel : nat) :
  forall (count : Z) (w : World),
    count <= MaxInt64 ->
    outcome (diffLoop env verboseMode dataFilePath signature
               downloadMirrorURL fuel count w)
    = OutOfFuel.
Proof.
  induction fuel as [|fuel IH]; intros count w Hc.
  - cbn [diffLoop]. rewrite target_max.
    replace (count <=? MaxInt64) with true by (symmetry; apply Z.leb_le; lia).
    reflexivity.
  - rewrite diffLoop_step by lia.
    rewrite (bind_pure _ _ w (fileExists w (localDiffFilePathOf dataFilePath signature count)))
      by reflexivity.
    pose proof (wrap64_range (count + 1)) as Hw.
    destruct (fileExists w (localDiffFilePathOf dataFilePath signature count)) eqn:Hex.
    + apply IH. lia.
    + destruct (diffs_served count w Hex) as [status Hout].
      rewrite bind_outcome, Hout. cbn [snd]. apply IH. lia.
Qed.

(** So [updateFile] does not reach its threshold check. *)
Lemma updateFile_never_returns (diffCountThreshold : Z) (fuel : nat)
    (w : World) (old : Z) :
  fileExists w (fullPath dataFilePath signature) = true ->
  findLocalVersion (sigtool env w sigtoolPath (fullPath dataFilePath signature))
  = Returned (old, None) ->
  0 <= old ->
  outcome (updateFile env verboseMode dataFilePath sigtoolPath signature
             downloadMirrorURL diffCountThreshold fuel w)
  = OutOfFuel.
Proof.
  intros Hex Hprobe Hold. unfold updateFile, fullPath, fullName in *.
  rewrite (bind_pure _ _ w
             (fileExists w (dataFilePath ++ separator ++ Name signature ++ ".cvd")))
    by reflexivity.
  rewrite Hex. cbn [negb].
  rewrite bind_outcome. cbn [runSigtool final trace outcome].
  rewrite Hprobe.
  rewrite (bind_pure _ _ (advance w) (old, None)) by reflexivity.
  cbn [orb]. replace (old <? 0) with false by (symmetry; apply Z.ltb_ge; lia).
  rewrite bind_outcome, diffLoop_never_ends; [reflexivity|].
  apply wrap64_range.
Qed.

End MaxVersion.

(** The sample mirror serves every diff. *)
Lemma sample_diffs_served (run : SigtoolRun) (target v : Z) (w : World) :
  fileExists w (localDiffFilePathOf "/data" (mkSignature "main" target) v) = false ->
  exists status,
    outcome (downloadDiff (Sample.env "100" true [] false false false run)
               false "/data" (mkSignature "main" target) "http://mirror" v w)
    = Returned (status, None).
Proof.
  intros Hex. exists 200. unfold downloadDiff.
  run_unfold.
  unfold Sample.env.
  cbn [osTempFile httpGet httpParseTime timeNow osRename osChtimes existsb
       Sample.ok Sample.failing StatusCode BodyErr LastModified].
  change (200 =? StatusOK) with true.
  run_simpl.
  rewrite lookup_insert_ne.
  2:{ unfold localDiffFilePathOf, diffFilenameOf, separator.
      cbn [Name String.append]. discriminate. }
  destruct (files w !! localDiffFilePathOf "/data" (mkSignature "main" target) v);
    [discriminate|].
  run_simpl.
  repeat (blocked; run_simpl); reflexivity.
Qed.

(** A run that does not end: probed version 5, target [MaxInt64]. *)
Lemma updateFile_max_version_never_returns (fuel : nat) :
  let env := Sample.env "100" true [] false false false (Sample.validated "5") in
  let w := Sample.world [("/data/main.cvd", mkFile 200 "old")] in
  outcome (updateFile env false "/data" "/usr/bin/sigtool"
             (mkSignature "main" MaxInt64) "http://mirror" 100 fuel w)
  = OutOfFuel.
Proof.
  apply (updateFile_never_returns
           (Sample.env "100" true [] false false false (Sample.validated "5"))
           false "/data" "/usr/bin/sigtool" (mkSignature "main" MaxInt64)
           "http://mirror" eq_refl (sample_diffs_served _ _)
           100 fuel _ 5); [reflexivity | reflexivity | lia].
Qed.

(** * Further properties *)

(** ** Decimal numbers *)

Lemma digit_bounds (c : ascii) (d : Z) : digit c = Some d -> 0 <= d <= 9.
Proof.
  unfold digit. destruct (_ && _) eqn:E; [|discriminate].
  intros [= <-]. apply andb_prop in E as [E1 E2]. lia.
Qed.

Lemma digits_nonneg (s : string) :
  forall acc v, 0 <= acc -> digits acc s = Some v -> 0 <= v.
Proof.
  induction s as [|c r IH]; intros acc v Hacc; cbn [digits].
  - intros [= <-]. exact Hacc.
  - destruct (digit c) as [d|] eqn:E; [|discriminate].
    apply digit_bounds in E. apply IH. lia.
Qed.

Lemma ParseInt_range (s : string) (v : Z) :
  ParseInt s = inl v -> MinInt64 <= v <= MaxInt64.
Proof.
  unfold ParseInt, MinInt64, MaxInt64. destruct s as [|c r]; [discriminate|].
  destruct (if Ascii.eqb c "+" || Ascii.eqb c "-" then r else String c r)
    as [|c' r'] eqn:Eb; [discriminate|].
  destruct (digits 0 (String c' r')) as [un|] eqn:Ed; [|discriminate].
  apply digits_nonneg in Ed; [|lia].
  destruct (Ascii.eqb c "-"); cbn [negb andb].
  - destruct (2 ^ 63 <? un) eqn:E; [discriminate|].
    intros [= <-]. apply Z.ltb_ge in E. lia.
  - destruct (2 ^ 63 <=? un) eqn:E; [discriminate|].
    intros [= <-]. apply Z.leb_gt in E. lia.
Qed.

Lemma digits_uint_acc (d : Decimal.uint) :
  forall p, digits (Zpos p) (NilEmpty.string_of_uint d)
            = Some (Zpos (Pos.of_uint_acc d p)).
Proof.
  induction d; intros p; cbn [NilEmpty.string_of_uint digits Pos.of_uint_acc];
    try reflexivity.
  all: match goal with
       | |- context [digit ?c] =>
           let r := eval vm_compute in (digit c) in change (digit c) with r
       end.
  all: rewrite <- IHd; f_equal; lia.
Qed.

Lemma digits_uint (d : Decimal.uint) :
  digits 0 (NilEmpty.string_of_uint d) = Some (Z.of_N (Pos.of_uint d)).
Proof.
  induction d; cbn [NilEmpty.string_of_uint digits Pos.of_uint];
    try reflexivity.
  all: match goal with
       | |- context [digit ?c] =>
           let r := eval vm_compute in (digit c) in change (digit c) with r
       end.
  1: exact IHd.
  all: rewrite Z.mul_0_r, Z.add_0_l, digits_uint_acc; reflexivity.
Qed.

Lemma allNumeric_uint (d : Decimal.uint) :
  allNumeric (NilEmpty.string_of_uint d) = true.
Proof. induction d; cbn; auto. Qed.

Lemma allNumeric_FormatInt (z : Z) : allNumeric (FormatInt z) = true.
Proof.
  unfold FormatInt, NilZero.string_of_int, NilZero.string_of_uint.
  destruct (Z.to_int z) as [d|d]; destruct d; cbn -[NilEmpty.string_of_uint];
    try reflexivity; try apply allNumeric_uint.
Qed.

Lemma FormatInt_nonempty (z : Z) : FormatInt z <> "".
Proof.
  unfold FormatInt, NilZero.string_of_int, NilZero.string_of_uint.
  destruct (Z.to_int z) as [d|d]; destruct d; discriminate.
Qed.

Lemma ParseInt_FormatInt (z : Z) :
  MinInt64 <= z <= MaxInt64 -> ParseInt (FormatInt z) = inl z.
Proof.
  unfold MinInt64, MaxInt64. intros Hz.
  destruct z as [|p|p].
  - reflexivity.
  - unfold FormatInt. cbn [Z.to_int NilZero.string_of_int].
    pose proof (Unsigned.to_uint_nonnil p) as Hnn.
    pose proof (digits_uint (Pos.to_uint p)) as Hd.
    rewrite Unsigned.of_to in Hd. cbn [Z.of_N] in Hd.
    unfold NilZero.string_of_uint.
    destruct (Pos.to_uint p) eqn:E; [congruence|..];
      cbn [NilEmpty.string_of_uint] in *;
      unfold ParseInt; cbn [Ascii.eqb Bool.eqb orb negb andb];
      rewrite Hd;
      (replace (2 ^ 63 <=? Z.pos p) with false by (symmetry; apply Z.leb_gt; lia));
      reflexivity.
  - unfold FormatInt. cbn [Z.to_int NilZero.string_of_int].
    pose proof (Unsigned.to_uint_nonnil p) as Hnn.
    pose proof (digits_uint (Pos.to_uint p)) as Hd.
    rewrite Unsigned.of_to in Hd. cbn [Z.of_N] in Hd.
    unfold NilZero.string_of_uint.
    destruct (Pos.to_uint p) eqn:E; [congruence|..];
      cbn [NilEmpty.string_of_uint] in *;
      unfold ParseInt; cbn [Ascii.eqb Bool.eqb orb negb andb];
      rewrite Hd;
      (replace (2 ^ 63 <? Z.pos p) with false by (symmetry; apply Z.ltb_ge; lia));
      reflexivity.
Qed.

Lemma FormatInt_inj (a b : Z) : FormatInt a = FormatInt b -> a = b.
Proof.
  unfold FormatInt. intros H.
  assert (Hnn : forall z, Z.to_int z <> Decimal.Pos Decimal.Nil
                          /\ Z.to_int z <> Decimal.Neg Decimal.Nil).
  { intros [|p|p]; cbn; split; try discriminate;
      intros [= E]; exact (Unsigned.to_uint_nonnil p E). }
  apply (f_equal NilZero.int_of_string) in H.
  rewrite !NilZero.isi in H by apply Hnn.
  injection H as H. apply (f_equal Z.of_int) in H.
  rewrite !DecimalZ.of_to in H. exact H.
Qed.

(** ** Cutting strings *)

Lemma append_nil_l (s : string) : "" ++ s = s.
Proof. reflexivity. Qed.

Lemma append_cons (c : ascii) (a b : string) :
  String c a ++ b = String c (a ++ b).
Proof. reflexivity. Qed.

Lemma prefix_char (c x : ascii) (r : string) :
  String.prefix (String c "") (String x r) = Ascii.eqb x c.
Proof.
  cbn [String.prefix]. destruct (ascii_dec c x) as [->|Hne].
  - rewrite Ascii.eqb_refl. destruct r; reflexivity.
  - symmetry. apply Ascii.eqb_neq. congruence.
Qed.

Lemma cut_char (c : ascii) (a b : string) :
  hasChar c a = false ->
  cut (String c "") (a ++ String c b) = Some (a, b).
Proof.
  induction a as [|x a IH]; intros H.
  - rewrite append_nil_l. cbn [cut]. rewrite prefix_char, Ascii.eqb_refl.
    reflexivity.
  - cbn [hasChar] in H. apply orb_false_elim in H as [Hx Ha].
    rewrite append_cons. cbn [cut]. rewrite prefix_char, Hx, (IH Ha).
    reflexivity.
Qed.

Lemma cut_char_none (c : ascii) (s : string) :
  hasChar c s = false -> cut (String c "") s = None.
Proof.
  induction s as [|x s IH]; intros H; [reflexivity|].
  cbn [hasChar] in H. apply orb_false_elim in H as [Hx Hs].
  cbn [cut]. rewrite prefix_char, Hx, (IH Hs). reflexivity.
Qed.

Lemma genSplit_char (k : nat) (c : ascii) (a b : string) :
  hasChar c a = false ->
  genSplit (S k) (String c "") false (a ++ String c b)
  = a :: genSplit k (String c "") false b.
Proof. intros H. cbn [genSplit]. rewrite (cut_char _ _ _ H). reflexivity. Qed.

Lemma numeric_not (c x : ascii) :
  numeric x = false -> numeric c = true -> Ascii.eqb c x = false.
Proof.
  intros Hx Hc. destruct (Ascii.eqb_spec c x) as [->|]; [congruence|reflexivity].
Qed.

Lemma allNumeric_hasChar (x : ascii) (s : string) :
  numeric x = false -> allNumeric s = true -> hasChar x s = false.
Proof.
  intros Hx. induction s as [|c r IH]; [reflexivity|].
  cbn [allNumeric hasChar]. intros H. apply andb_prop in H as [Hc Hr].
  rewrite (numeric_not _ _ Hx Hc), (IH Hr). reflexivity.
Qed.



(** ** [parseTxtRecord], further *)

Lemma genSplit_length (k : nat) (sep : string) (save : bool) :
  forall s, (length (genSplit k sep save s) <= S k)%nat.
Proof.
  induction k as [|k IH]; intros s; cbn [genSplit]; [cbn; lia|].
  destruct (cut sep s) as [[a b]|]; cbn [length]; [|lia].
  specialize (IH b). lia.
Qed.

Lemma SplitN_eight_fields (f0 f1 f2 f3 f4 f5 f6 rest : string) :
  hasChar ":" f0 = false -> hasChar ":" f1 = false ->
  hasChar ":" f2 = false -> hasChar ":" f3 = false ->
  hasChar ":" f4 = false -> hasChar ":" f5 = false ->
  hasChar ":" f6 = false ->
  SplitN (f0 ++ ":" ++ f1 ++ ":" ++ f2 ++ ":" ++ f3 ++ ":" ++ f4 ++ ":"
             ++ f5 ++ ":" ++ f6 ++ ":" ++ rest) ":" 8
  = [f0; f1; f2; f3; f4; f5; f6; rest].
Proof.
  intros H0 H1 H2 H3 H4 H5 H6. unfold SplitN.
  rewrite !(append_cons ":" ""), !append_nil_l.
  repeat (rewrite genSplit_char by assumption).
  reflexivity.
Qed.

(** X1: a record of eight fields whose second, third, seventh and eighth
    fields are printed [int64] numbers, the other fields free of colons, is
    parsed with success into exactly these four numbers. *)
Theorem parseTxtRecord_formatted (f0 f3 f4 f5 : string) (m d sb b : Z) :
  hasChar ":" f0 = false -> hasChar ":" f3 = false ->
  hasChar ":" f4 = false -> hasChar ":" f5 = false ->
  MinInt64 <= m <= MaxInt64 -> MinInt64 <= d <= MaxInt64 ->
  MinInt64 <= sb <= MaxInt64 -> MinInt64 <= b <= MaxInt64 ->
  parseTxtRecord (f0 ++ ":" ++ FormatInt m ++ ":" ++ FormatInt d ++ ":"
                     ++ f3 ++ ":" ++ f4 ++ ":" ++ f5 ++ ":"
                     ++ FormatInt sb ++ ":" ++ FormatInt b)
  = Returned (mkVersions m d sb b, None).
Proof.
  intros H0 H3 H4 H5 Hm Hd Hs Hb. unfold parseTxtRecord.
  rewrite SplitN_eight_fields
    by (assumption || (apply allNumeric_hasChar;
                       [reflexivity | apply allNumeric_FormatInt])).
  unfold index, parseField. cbn [nth_error obind].
  rewrite !ParseInt_FormatInt by assumption. reflexivity.
Qed.

Lemma parseTxtRecord_formatted_witness :
  parseTxtRecord ("0.99.2" ++ ":" ++ FormatInt 57 ++ ":" ++ FormatInt 21723 ++ ":"
                     ++ "1465773540" ++ ":" ++ "0" ++ ":" ++ "63" ++ ":"
                     ++ FormatInt 44737 ++ ":" ++ FormatInt 283)
  = Returned (mkVersions 57 21723 44737 283, None).
Proof.
  apply parseTxtRecord_formatted; try reflexivity;
    unfold MinInt64, MaxInt64; lia.
Defined.



(** X3: whatever [parseTxtRecord] returns, an error comes with the zero
    versions, and a success means that the record had eight fields and
    that each of the four versions is an [int64]. *)
Theorem parseTxtRecord_result (rec : string) (v : SignatureVersions)
    (e : option error) :
  parseTxtRecord rec = Returned (v, e) ->
  match e with
  | Some _ => v = zeroVersions
  | None =>
      length (SplitN rec ":" 8) = 8%nat /\
      (MinInt64 <= MainVersion v <= MaxInt64) /\
      (MinInt64 <= DailyVersion v <= MaxInt64) /\
      (MinInt64 <= SafeBrowsingVersion v <= MaxInt64) /\
      (MinInt64 <= ByteCodeVersion v <= MaxInt64)
  end.
Proof.
  unfold parseTxtRecord, parseField, index, obind.
  pose proof (genSplit_length 7 ":" false rec) as Hlen.
  change (genSplit 7 ":" false rec) with (SplitN rec ":" 8) in Hlen.
  destruct (nth_error (SplitN rec ":" 8) 1) as [s1|]; [|discriminate].
  destruct (ParseInt s1) as [mainv|] eqn:E1; [|intros [= <- <-]; reflexivity].
  destruct (nth_error (SplitN rec ":" 8) 2) as [s2|]; [|discriminate].
  destruct (ParseInt s2) as [daily|] eqn:E2; [|intros [= <- <-]; reflexivity].
  destruct (nth_error (SplitN rec ":" 8) 6) as [s6|]; [|discriminate].
  destruct (ParseInt s6) as [sbv|] eqn:E6; [|intros [= <- <-]; reflexivity].
  destruct (nth_error (SplitN rec ":" 8) 7) as [s7|] eqn:E7; [|discriminate].
  destruct (ParseInt s7) as [bcv|] eqn:E8; [|intros [= <- <-]; reflexivity].
  intros [= <- <-]. cbn [MainVersion DailyVersion SafeBrowsingVersion ByteCodeVersion].
  split.
  - assert (H : nth_error (SplitN rec ":" 8) 7 <> None) by congruence.
    apply nth_error_Some in H. lia.
  - pose proof (ParseInt_range _ _ E1). pose proof (ParseInt_range _ _ E2).
    pose proof (ParseInt_range _ _ E6). pose proof (ParseInt_range _ _ E8).
    tauto.
Qed.

Lemma parseTxtRecord_result_witness :
  length (SplitN "0.99.2:57:21723:1465773540:0:63:44737:283" ":" 8) = 8%nat /\
  (MinInt64 <= 57 <= MaxInt64) /\ (MinInt64 <= 21723 <= MaxInt64) /\
  (MinInt64 <= 44737 <= MaxInt64) /\ (MinInt64 <= 283 <= MaxInt64).
Proof.
  apply (parseTxtRecord_result "0.99.2:57:21723:1465773540:0:63:44737:283"
           (mkVersions 57 21723 44737 283) None).
  reflexivity.
Defined.

(** ** [findLocalVersion], further *)

Lemma scanLoop_scan (lines : list string) :
  forallb versionLineOk lines = true ->
  forall version validated,
    scanLoop lines version validated
    = Returned (ScanEnd (lastVersion lines version)
                        (validated || existsb marked lines)).
Proof.
  unfold lastVersion.
  induction lines as [|line rest IH]; intros Hok version validated.
  - cbn. rewrite orb_false_r. reflexivity.
  - cbn [forallb] in Hok. apply andb_prop in Hok as [Hl Hrest].
    cbn [scanLoop fold_left existsb]. unfold versionLineOk in Hl.
    unfold lineVersion, index, marked.
    destruct (HasPrefix line "Version:").
    + destruct (nth_error (SplitAfter line "Version: ") 1) as [s1|];
        [|discriminate].
      cbn [obind].
      destruct (ParseInt (TrimSpace s1)) as [v|]; [|discriminate].
      rewrite (IH Hrest).
      destruct (HasPrefix line "Verification OK"), validated; reflexivity.
    + rewrite (IH Hrest).
      destruct (HasPrefix line "Verification OK"), validated; reflexivity.
Qed.

Lemma scanLoop_return (lines : list string) :
  forall version validated r,
    scanLoop lines version validated = Returned (ScanReturn r) ->
    exists e, r = (errVersion, Some e).
Proof.
  induction lines as [|line rest IH]; intros version validated r;
    cbn [scanLoop]; [discriminate|].
  destruct (HasPrefix line "Version:").
  - unfold index. destruct (nth_error (SplitAfter line "Version: ") 1) as [s1|];
      [|discriminate].
    cbn [obind]. destruct (ParseInt (TrimSpace s1)) as [v|].
    + apply IH.
    + intros [= <-]. eauto.
  - apply IH.
Qed.

(** X4: every error of [findLocalVersion] comes with the version [-1]. *)
Theorem findLocalVersion_error_version (run : SigtoolRun) (v : Z) (e : error) :
  findLocalVersion run = Returned (v, Some e) -> v = -1.
Proof.
  unfold findLocalVersion.
  destruct (pipeErr run); [discriminate|].
  destruct (startErr run); [intros [= <- _]; reflexivity|].
  destruct (scanLoop (stdoutLines run) MinInt64 false) as [[r|ver val]| |] eqn:E;
    cbn [obind]; try discriminate.
  - apply scanLoop_return in E as [e' ->]. intros [= <- _]. reflexivity.
  - destruct (negb val); [intros [= <- _]; reflexivity|].
    destruct (ver =? MinInt64); [intros [= <- _]; reflexivity|].
    destruct (scanErr run); [intros [= <- _]; reflexivity|].
    destruct (waitErr run); [intros [= <- _]; reflexivity|].
    discriminate.
Qed.

Lemma findLocalVersion_error_version_witness : errVersion = -1.
Proof.
  apply (findLocalVersion_error_version
           (mkSigtoolRun None None ["Version: 57"] None None) errVersion
           notValidated).
  reflexivity.
Defined.

Lemma findLocalVersion_scanned (run : SigtoolRun) :
  pipeErr run = None ->
  startErr run = None ->
  forallb versionLineOk (stdoutLines run) = true ->
  findLocalVersion run
  = if negb (existsb marked (stdoutLines run)) then
      Returned (errVersion, Some notValidated)
    else if lastVersion (stdoutLines run) MinInt64 =? MinInt64 then
      Returned (errVersion,
                Some (errorsNew "No version information was available for file"))
    else match scanErr run with
         | Some e => Returned (errVersion, Some (Wrapf "Error parsing sigtool STDOUT" e))
         | None =>
             match waitErr run with
             | Some e =>
                 Returned (errVersion,
                           Some (Wrapf "Error waiting for sigtool STDOUT to flush" e))
             | None => Returned (lastVersion (stdoutLines run) MinInt64, None)
             end
         end.
Proof.
  intros Hp Hs Hok. unfold findLocalVersion. rewrite Hp, Hs.
  rewrite (scanLoop_scan _ Hok). reflexivity.
Qed.

Lemma lineVersion_ok (line : string) (v : Z) :
  lineVersion line = Some v -> versionLineOk line = true.
Proof.
  unfold lineVersion, versionLineOk.
  destruct (HasPrefix line "Version:"); [|discriminate].
  destruct (nth_error _ 1); [|discriminate].
  destruct (ParseInt _); [reflexivity|discriminate].
Qed.

Lemma plain_ok (lines : list string) :
  forallb plain lines = true -> forallb versionLineOk lines = true.
Proof.
  induction lines as [|l r IH]; [reflexivity|]. cbn [forallb].
  intros H. apply andb_prop in H as [Hl Hr]. rewrite (IH Hr), andb_true_r.
  unfold plain in Hl. apply negb_true_iff in Hl.
  unfold versionLineOk. rewrite Hl. reflexivity.
Qed.

Lemma lastVersion_plain (lines : list string) (v : Z) :
  forallb plain lines = true -> lastVersion lines v = v.
Proof.
  unfold lastVersion. induction lines as [|l r IH]; [reflexivity|].
  cbn [forallb fold_left]. intros H. apply andb_prop in H as [Hl Hr].
  unfold plain in Hl. apply negb_true_iff in Hl.
  unfold lineVersion at 2. rewrite Hl. apply IH, Hr.
Qed.

Lemma lastVersion_last (pre post : list string) (line : string) (v v0 : Z) :
  lineVersion line = Some v ->
  forallb plain post = true ->
  lastVersion (pre ++ line :: post) v0 = v.
Proof.
  intros Hl Hpost. unfold lastVersion.
  rewrite fold_left_app. cbn [fold_left]. rewrite Hl.
  apply (lastVersion_plain post v Hpost).
Qed.

(** X5: when sigtool ran and ended without error and some line carries the
    marker, the version returned is the one of the last version line,
    wherever the marker line stands. *)
Theorem findLocalVersion_last_version_wins (run : SigtoolRun)
    (pre post : list string) (line : string) (v : Z) :
  pipeErr run = None -> startErr run = None ->
  scanErr run = None -> waitErr run = None ->
  stdoutLines run = (pre ++ line :: post)%list ->
  forallb versionLineOk pre = true ->
  lineVersion line = Some v ->
  forallb plain post = true ->
  existsb marked (stdoutLines run) = true ->
  v <> MinInt64 ->
  findLocalVersion run = Returned (v, None).
Proof.
  intros Hp Hs Hsc Hw Hlines Hpre Hline Hpost Hmark Hv.
  rewrite findLocalVersion_scanned; [|assumption..|].
  - rewrite Hmark, Hsc, Hw. cbn [negb]. rewrite Hlines.
    rewrite (lastVersion_last pre post line v MinInt64 Hline Hpost).
    apply Z.eqb_neq in Hv. rewrite Hv. reflexivity.
  - rewrite Hlines, forallb_app. cbn [forallb].
    rewrite Hpre, (lineVersion_ok _ _ Hline), (plain_ok _ Hpost). reflexivity.
Qed.

Lemma findLocalVersion_last_version_wins_witness :
  findLocalVersion
    (mkSigtoolRun None None
       ["Verification OK."; "Version: 12"; "Version: 57 "; "Builder: x"]
       None None)
  = Returned (57, None).
Proof.
  apply (findLocalVersion_last_version_wins _
           ["Verification OK."; "Version: 12"] ["Builder: x"] "Version: 57 " 57);
    try reflexivity.
  unfold MinInt64. discriminate.
Defined.

(** X6: a validated output without any version line gives the error "No
    version information", with the version [-1], whatever the scanner and
    [Wait] report. *)
Theorem findLocalVersion_no_version (run : SigtoolRun) :
  pipeErr run = None -> startErr run = None ->
  forallb plain (stdoutLines run) = true ->
  existsb marked (stdoutLines run) = true ->
  findLocalVersion run
  = Returned (-1, Some (errorsNew "No version information was available for file")).
Proof.
  intros Hp Hs Hplain Hmark.
  rewrite findLocalVersion_scanned by (assumption || apply plain_ok, Hplain).
  rewrite Hmark, (lastVersion_plain _ _ Hplain). reflexivity.
Qed.

Lemma findLocalVersion_no_version_witness :
  findLocalVersion
    (mkSigtoolRun None None ["File: main.cvd"; "Verification OK."] None None)
  = Returned (-1, Some (errorsNew "No version information was available for file")).
Proof. apply findLocalVersion_no_version; reflexivity. Defined.

(** ** Reading back a printed version *)

Lemma stripSpace_numeric (c : ascii) (r : string) :
  numeric c = true -> stripSpace spaces (String c r) = None.
Proof.
  destruct c as [[] [] [] [] [] [] [] []]; intros H;
    try (vm_compute in H; discriminate H); reflexivity.
Qed.

Lemma stripSpace_rev_numeric (c : ascii) (r : string) :
  numeric c = true ->
  stripSpace (List.map rev_string spaces) (String c r) = None.
Proof.
  destruct c as [[] [] [] [] [] [] [] []]; intros H;
    try (vm_compute in H; discriminate H); reflexivity.
Qed.

Lemma trimLeft_numeric (sp : list string) (k : nat) (c : ascii) (r : string) :
  stripSpace sp (String c r) = None -> trimLeft sp k (String c r) = String c r.
Proof. intros H. destruct k; cbn [trimLeft]; [|rewrite H]; reflexivity. Qed.

Lemma allNumeric_list (l : list ascii) :
  allNumeric (string_of_list_ascii l) = forallb numeric l.
Proof.
  induction l as [|c l IH]; [reflexivity|].
  cbn [string_of_list_ascii allNumeric forallb]. rewrite IH. reflexivity.
Qed.

Lemma allNumeric_rev (s : string) :
  allNumeric s = true -> allNumeric (rev_string s) = true.
Proof.
  intros H. unfold rev_string. rewrite allNumeric_list.
  rewrite <- (string_of_list_ascii_of_string s), allNumeric_list in H.
  rewrite forallb_forall in *. intros c Hc. apply H, in_rev, Hc.
Qed.

Lemma rev_string_involutive (s : string) : rev_string (rev_string s) = s.
Proof.
  unfold rev_string.
  rewrite list_ascii_of_string_of_list_ascii, rev_involutive.
  apply string_of_list_ascii_of_string.
Qed.

Lemma TrimSpace_numeric (s : string) :
  allNumeric s = true -> TrimSpace s = s.
Proof.
  intros H. unfold TrimSpace. destruct s as [|c r]; [reflexivity|].
  assert (Hc : numeric c = true)
    by (cbn [allNumeric] in H; apply andb_prop in H as [Hc _]; exact Hc).
  rewrite trimLeft_numeric by (apply stripSpace_numeric, Hc).
  pose proof (allNumeric_rev _ H) as Hrev.
  destruct (rev_string (String c r)) as [|c' r'] eqn:E.
  - rewrite <- (rev_string_involutive (String c r)), E. reflexivity.
  - assert (Hc' : numeric c' = true)
      by (cbn [allNumeric] in Hrev; apply andb_prop in Hrev as [Hc' _]; exact Hc').
    rewrite trimLeft_numeric by (apply stripSpace_rev_numeric, Hc').
    rewrite <- E. apply rev_string_involutive.
Qed.

Lemma cut_none (sep : string) (x : ascii) (sep' s : string) :
  sep = String x sep' -> hasChar x s = false -> cut sep s = None.
Proof.
  intros -> . induction s as [|c r IH]; intros H; [reflexivity|].
  cbn [hasChar] in H. apply orb_false_elim in H as [Hc Hr].
  cbn [cut String.prefix]. destruct (ascii_dec x c) as [->|_].
  - rewrite Ascii.eqb_refl in Hc. discriminate.
  - rewrite (IH Hr). reflexivity.
Qed.

Lemma prefix_append (p x : string) : String.prefix p (p ++ x) = true.
Proof.
  induction p as [|c p IH]; [destruct x; reflexivity|].
  rewrite append_cons. cbn [String.prefix].
  destruct (ascii_dec c c); [exact IH | congruence].
Qed.

Lemma dropn_append (p x : string) : dropn (String.length p) (p ++ x) = x.
Proof. induction p as [|c p IH]; [reflexivity | exact IH]. Qed.

Lemma cut_prefix (c : ascii) (p x : string) :
  cut (String c p) (String c p ++ x) = Some ("", x).
Proof.
  rewrite append_cons. cbn [cut]. rewrite <- append_cons.
  rewrite prefix_append, dropn_append. reflexivity.
Qed.

Lemma lineVersion_FormatInt (v : Z) :
  MinInt64 <= v <= MaxInt64 ->
  lineVersion ("Version: " ++ FormatInt v) = Some v.
Proof.
  intros Hv. unfold lineVersion.
  change (HasPrefix ("Version: " ++ FormatInt v) "Version:") with true.
  cbv iota.
  assert (Hsplit : SplitAfter ("Version: " ++ FormatInt v) "Version: "
                   = ["Version: "; FormatInt v]).
  { unfold SplitAfter.
    assert (Hlen : exists k, String.length ("Version: " ++ FormatInt v) = S (S k)).
    { exists (7 + String.length (FormatInt v))%nat. reflexivity. }
    destruct Hlen as [k ->].
    cbn [genSplit]. rewrite cut_prefix.
    rewrite (cut_none "Version: " "V" "ersion: " _ eq_refl)
      by (apply allNumeric_hasChar; [reflexivity | apply allNumeric_FormatInt]).
    reflexivity. }
  rewrite Hsplit. cbn [nth_error].
  rewrite TrimSpace_numeric by apply allNumeric_FormatInt.
  rewrite ParseInt_FormatInt by assumption. reflexivity.
Qed.

(** X7: a version printed in decimal on the last version line of a
    validated output is read back unchanged, for every [int64] but the
    smallest. *)
Theorem findLocalVersion_reads_printed_version (pre post : list string) (v : Z) :
  MinInt64 < v <= MaxInt64 ->
  forallb versionLineOk pre = true ->
  forallb plain post = true ->
  existsb marked (pre ++ post) = true ->
  findLocalVersion
    (mkSigtoolRun None None (pre ++ ("Version: " ++ FormatInt v) :: post) None None)
  = Returned (v, None).
Proof.
  intros Hv Hpre Hpost Hmark.
  assert (Hline : lineVersion ("Version: " ++ FormatInt v) = Some v)
    by (apply lineVersion_FormatInt; lia).
  rewrite findLocalVersion_scanned; cbn [pipeErr startErr stdoutLines scanErr waitErr];
    try reflexivity.
  - rewrite (lastVersion_last pre post _ v MinInt64 Hline Hpost).
    replace (existsb marked (pre ++ ("Version: " ++ FormatInt v) :: post)) with true.
    + cbn [negb]. replace (v =? MinInt64) with false
        by (symmetry; apply Z.eqb_neq; lia).
      reflexivity.
    + symmetry. rewrite existsb_app in *. cbn [existsb].
      apply orb_prop in Hmark as [->| ->]; [reflexivity|].
      rewrite !orb_true_r. reflexivity.
  - rewrite forallb_app. cbn [forallb].
    rewrite Hpre, (lineVersion_ok _ _ Hline), (plain_ok _ Hpost). reflexivity.
Qed.

Lemma findLocalVersion_reads_printed_version_witness :
  findLocalVersion
    (mkSigtoolRun None None
       (["File: daily.cvd"] ++ ("Version: " ++ FormatInt 21723)
          :: ["Verification OK."]) None None)
  = Returned (21723, None).
Proof.
  apply findLocalVersion_reads_printed_version; try reflexivity.
  unfold MinInt64, MaxInt64. lia.
Defined.

(** ** [downloadFile], further *)

Ltac use_fresh :=
  repeat match goal with
         | H : forall tmp, inl ?x = inl tmp -> _ |- _ =>
             specialize (H x eq_refl)
         | H : forall tmp, inr _ = inl tmp -> _ |- _ => clear H
         end.

Ltac lookups :=
  repeat match goal with
         | H : context [<[_:=_]> _ !! _] |- _ =>
             first [ rewrite lookup_insert_eq in H
                   | rewrite lookup_insert_ne in H by congruence
                   | rewrite lookup_delete_ne in H by congruence ]
         end;
  repeat first [ rewrite lookup_insert_eq
               | rewrite lookup_insert_ne by congruence
               | rewrite lookup_delete_eq
               | rewrite lookup_delete_ne by congruence ].

(** X9: [downloadFile] leaves every file alone but [localFilePath] and the
    temporary file that it creates. *)
Theorem downloadFile_frame (env : Env) (verboseMode : bool)
    (filename localFilePath url : string) (w : World) (q : string) :
  q <> localFilePath ->
  (forall tmp, osTempFile env w (filename ++ "-") = inl tmp -> q <> tmp) ->
  files (final (downloadFile env verboseMode filename localFilePath url w)) !! q
  = files w !! q.
Proof.
  intros Hq Htmp. run_all. all: use_fresh. all: lookups. all: reflexivity.
Qed.

Lemma downloadFile_frame_witness :
  let env := Sample.env "100" true [] false false false (Sample.validated "57") in
  let w := Sample.world [("/data/main.cvd", mkFile 200 "old");
                         ("/data/daily.cvd", mkFile 300 "other")] in
  files (final (downloadFile env false "main.cvd" "/data/main.cvd"
                  "http://mirror" w)) !! "/data/daily.cvd"
  = files w !! "/data/daily.cvd".
Proof.
  apply (downloadFile_frame
           (Sample.env "100" true [] false false false (Sample.validated "57"))
           false "main.cvd" "/data/main.cvd" "http://mirror"
           (Sample.world [("/data/main.cvd", mkFile 200 "old");
                          ("/data/daily.cvd", mkFile 300 "other")])
           "/data/daily.cvd").
  - discriminate.
  - intros tmp [= <-]. discriminate.
Defined.

(** X10: without a local file [downloadFile] sends no HEAD request. *)
Theorem downloadFile_no_head_without_local (env : Env) (verboseMode : bool)
    (filename localFilePath url : string) (w : World) :
  fileExists w localFilePath = false ->
  (forall tmp, osTempFile env w (filename ++ "-") = inl tmp ->
               tmp <> localFilePath) ->
  forall u res,
    ~ In (EvHead u res)
         (trace (downloadFile env verboseMode filename localFilePath url w)).
Proof.
  intros Hex Htmp u res Hin. run_all. all: use_fresh. all: lookups.
  all: try congruence. all: in_trace Hin.
Qed.

Lemma downloadFile_no_head_without_local_witness :
  let env := Sample.env "100" true [] false false false (Sample.validated "57") in
  fileExists (Sample.world []) "/data/main.cvd" = false /\
  forall u res,
    ~ In (EvHead u res)
         (trace (downloadFile env false "main.cvd" "/data/main.cvd"
                   "http://mirror" (Sample.world []))).
Proof.
  split; [reflexivity|].
  apply (downloadFile_no_head_without_local
           (Sample.env "100" true [] false false false (Sample.validated "57"))
           false "main.cvd" "/data/main.cvd" "http://mirror" (Sample.world [])).
  - reflexivity.
  - intros tmp [= <-]. discriminate.
Defined.

(** X11: a HEAD request that fails ends [downloadFile] with the status [-1]
    and the wrapped error, before any GET request. *)
Theorem downloadFile_head_error (env : Env) (verboseMode : bool)
    (filename localFilePath url : string) (w : World) (e : error) :
  let r := downloadFile env verboseMode filename localFilePath url w in
  In (EvHead (url ++ "/" ++ filename) (inr e)) (trace r) ->
  outcome r
  = Returned (-1, Some (Wrapf ("Unable to complete HEAD request: ["
                                 ++ (url ++ "/" ++ filename) ++ "]. {{err}}") e))
  /\ gets (trace r) = [].
Proof.
  intros r Hin. subst r. run_all. all: in_trace Hin.
  all: simplify_eq; split; reflexivity.
Qed.

(** X12: a GET request that fails, or is answered with another status than
    200, ends [downloadFile] with an error (the status of the answer, or
    [-1]); nothing is copied and the local file is as before. *)
Theorem downloadFile_get_failure (env : Env) (verboseMode : bool)
    (filename localFilePath url : string) (w : World)
    (res : Response + error) :
  let r := downloadFile env verboseMode filename localFilePath url w in
  In (EvGet (url ++ "/" ++ filename) res) (trace r) ->
  match res with
  | inl resp => StatusCode resp <> StatusOK
  | inr _ => True
  end ->
  (forall tmp, osTempFile env w (filename ++ "-") = inl tmp ->
               tmp <> localFilePath) ->
  outcome r
  = Returned
      match res with
      | inl resp =>
          (StatusCode resp,
           Some (errorsNew ("Unable to download file: [" ++ Status resp ++ "]")))
      | inr e =>
          (-1, Some (Wrapf ("Unable to retrieve file from: ["
                              ++ (url ++ "/" ++ filename) ++ "]. {{err}}") e))
      end
  /\ files (final r) !! localFilePath = files w !! localFilePath
  /\ (forall tmp res', ~ In (EvCopy tmp res') (trace r)).
Proof.
  intros r Hin Hres Htmp. subst r. run_all. all: in_trace Hin.
  all: simplify_eq. all: use_fresh.
  all: try match goal with
           | H : negb (_ =? _) = false |- _ =>
               apply negb_false_iff, Z.eqb_eq in H; congruence
           end.
  all: lookups.
  all: split; [reflexivity | split; [reflexivity|]].
  all: intros tmp' res' Hc; in_trace Hc.
Qed.

(** X13: when the renaming and [os.Chtimes] succeed, [localFilePath] holds
    the body of the answer, stamped with the time given to [os.Chtimes],
    which is the [Last-Modified] of the answer when this one parses; the
    temporary file is gone and the result is [(200, nil)]. *)
Theorem downloadFile_installs (env : Env) (verboseMode : bool)
    (filename localFilePath url : string) (w : World)
    (resp : Response) (tmp : string) (t : Z) :
  let r := downloadFile env verboseMode filename localFilePath url w in
  In (EvGet (url ++ "/" ++ filename) (inl resp)) (trace r) ->
  In (EvRename tmp localFilePath None) (trace r) ->
  In (EvChtimes localFilePath t None) (trace r) ->
  tmp <> localFilePath ->
  outcome r = Returned (StatusOK, None)
  /\ files (final r) !! localFilePath = Some (mkFile t (Body resp))
  /\ files (final r) !! tmp = None
  /\ (forall t', httpParseTime env (LastModified resp) = inl t' -> t = t').
Proof.
  intros r Hget Hren Hch Hne. subst r. run_all.
  all: in_trace Hget. all: in_trace Hren. all: in_trace Hch.
  all: simplify_eq.
  all: match goal with
       | H : negb _ = false |- _ => apply negb_false_iff, Z.eqb_eq in H
       end.
  all: lookups. all: simplify_eq.
  all: repeat split; try congruence.
  all: cbn [contents]; try reflexivity.
Qed.

(** X14: the temporary file is never removed: unless it was renamed, it is
    still there when [downloadFile] returns or panics. *)
Theorem downloadFile_leaves_temp_file (env : Env) (verboseMode : bool)
    (filename localFilePath url : string) (w : World) (tmp : string) :
  let r := downloadFile env verboseMode filename localFilePath url w in
  osTempFile env w (filename ++ "-") = inl tmp ->
  (forall dst, ~ In (EvRename tmp dst None) (trace r)) ->
  is_Some (files (final r) !! tmp).
Proof.
  intros r Htmp Hren. subst r. run_unfold. rewrite Htmp in *. run_simpl.
  repeat (blocked; run_simpl).
  all: try (exfalso; eapply Hren; cbn [In]; eauto 12; fail).
  all: lookups; eauto.
  all: destruct (decide (tmp = localFilePath)) as [->|]; lookups; eauto.
Qed.

(** X15: [downloadFile] returns without error in two ways only: with the
    status 200 after one GET request, or with [-1] and no GET request. *)
Theorem downloadFile_success_status (env : Env) (verboseMode : bool)
    (filename localFilePath url : string) (w : World) (status : Z) :
  let r := downloadFile env verboseMode filename localFilePath url w in
  outcome r = Returned (status, None) ->
  (status = StatusOK /\ gets (trace r) = [url ++ "/" ++ filename]) \/
  (status = -1 /\ gets (trace r) = []).
Proof.
  intros r Hout. subst r. run_all.
  all: simplify_eq.
  all: try match goal with
           | H : negb _ = false |- _ => apply negb_false_iff, Z.eqb_eq in H
           end.
  all: first [ left; split; [assumption | reflexivity]
             | right; split; reflexivity ].
Qed.

(** ** [updateFile], further *)

Lemma bind_inv {A B} (m : M A) (k : A -> M B) (w : World) (b : B) :
  outcome (bind m k w) = Returned b ->
  exists a,
    outcome (m w) = Returned a /\
    outcome (k a (final (m w))) = Returned b /\
    trace (bind m k w) = (trace (m w) ++ trace (k a (final (m w))))%list /\
    final (bind m k w) = final (k a (final (m w))).
Proof.
  intros H. rewrite bind_outcome in H.
  destruct (outcome (m w)) as [a| |] eqn:E; try discriminate.
  exists a. rewrite (bind_returned _ _ _ _ E). auto.
Qed.

Lemma downloadFile_no_sigtool (env : Env) (verboseMode : bool)
    (filename localFilePath url : string) (w : World) sp p run :
  ~ In (EvSigtool sp p run)
       (trace (downloadFile env verboseMode filename localFilePath url w)).
Proof. intros Hin. run_all. all: in_trace Hin. Qed.

Section UpdateFileMore.

Variables (env : Env) (verboseMode : bool) (dataFilePath sigtoolPath : string)
          (signature : Signature) (downloadMirrorURL : string).

Abbreviation getFull' :=
  (downloadFull env verboseMode dataFilePath signature downloadMirrorURL).
Abbreviation getFullOrError' :=
  (fullDownload env verboseMode dataFilePath signature downloadMirrorURL).
Abbreviation loop' :=
  (diffLoop env verboseMode dataFilePath signature downloadMirrorURL).
Abbreviation update' :=
  (updateFile env verboseMode dataFilePath sigtoolPath signature downloadMirrorURL).

Lemma fullDownload_as_download (w : World) :
  getFullOrError' w
  = mkRun (final (getFull' w)) (trace (getFull' w)) (errorOf (outcome (getFull' w))).
Proof.
  unfold fullDownload, downloadFull, fullPath, fullName, bind.
  destruct (downloadFile _ _ _ _ _ w) as [w1 t1 [[st [e|]]|msg|]];
    cbn [snd ret final trace outcome errorOf]; rewrite ?app_nil_r; reflexivity.
Qed.

(** X16: without a local file [updateFile] is one download of the full
    file: one call, no run of sigtool, and its error is the result. *)
Theorem updateFile_first_download (diffCountThreshold : Z) (fuel : nat)
    (w : World) :
  fileExists w (fullPath dataFilePath signature) = false ->
  let r := update' diffCountThreshold fuel w in
  trace r = trace (getFull' w) /\
  calls (trace r) = [fullCall dataFilePath signature] /\
  (forall sp p run, ~ In (EvSigtool sp p run) (trace r)) /\
  outcome r = errorOf (outcome (getFull' w)).
Proof.
  intros Hex r. subst r. unfold updateFile.
  rewrite (bind_pure _ _ w (fileExists w (fullPath dataFilePath signature)))
    by reflexivity.
  rewrite Hex. cbn [negb]. rewrite fullDownload_as_download.
  cbn [trace outcome]. unfold downloadFull.
  split; [reflexivity|]. split; [apply downloadFile_calls|].
  split; [|reflexivity]. intros sp p run. apply downloadFile_no_sigtool.
Qed.

(** X17: when the probe returns an error or a negative version,
    [updateFile] calls [downloadFile] once, for the full file, and returns
    its error. *)
Theorem updateFile_untrusted_version (diffCountThreshold : Z) (fuel : nat)
    (w : World) (v : Z) (e : option error) :
  fileExists w (fullPath dataFilePath signature) = true ->
  findLocalVersion (sigtool env w sigtoolPath (fullPath dataFilePath signature))
  = Returned (v, e) ->
  e <> None \/ v < 0 ->
  let r := update' diffCountThreshold fuel w in
  calls (trace r) = [fullCall dataFilePath signature] /\
  outcome r = errorOf (outcome (getFull' (advance w))) /\
  final r = final (getFull' (advance w)).
Proof.
  intros Hex Hprobe Hbad r. subst r. unfold updateFile.
  rewrite (bind_pure _ _ w (fileExists w (fullPath dataFilePath signature)))
    by reflexivity.
  rewrite Hex. cbn [negb].
  rewrite (bind_returned _ _ w
             (sigtool env w sigtoolPath (fullPath dataFilePath signature)))
    by reflexivity.
  cbn [runSigtool final trace outcome]. rewrite Hprobe.
  rewrite (bind_pure _ _ (advance w) (v, e)) by reflexivity.
  replace ((match e with Some _ => true | None => false end) || (v <? 0))
    with true.
  - rewrite fullDownload_as_download. cbn [trace outcome final calls app].
    unfold downloadFull. rewrite downloadFile_calls. auto.
  - symmetry. destruct Hbad as [He|Hv].
    + destruct e; [reflexivity | congruence].
    + apply Z.ltb_lt in Hv. rewrite Hv. apply orb_true_r.
Qed.

Lemma diffLoop_all_present :
  Version signature < MaxInt64 ->
  forall (fuel : nat) (count : Z) (w : World),
    MinInt64 <= count ->
    Version signature - count < Z.of_nat fuel ->
    (forall v, count <= v <= Version signature ->
               fileExists w (localDiffFilePathOf dataFilePath signature v) = true) ->
    loop' fuel count w = mkRun w [] (Returned LoopEnd).
Proof.
  intros Hmax fuel. induction fuel as [|fuel IH]; intros count w Hmin Hfuel Hall.
  - apply diffLoop_end. lia.
  - destruct (Z.lt_ge_cases (Version signature) count) as [Hgt|Hle].
    { apply diffLoop_end. lia. }
    rewrite diffLoop_step by assumption.
    rewrite (bind_pure _ _ w (fileExists w (localDiffFilePathOf dataFilePath signature count)))
      by reflexivity.
    rewrite Hall by lia.
    rewrite wrap64_small by (unfold MinInt64, MaxInt64 in *; lia).
    apply IH; [lia | lia |]. intros v Hv. apply Hall. lia.
Qed.

Lemma updateFile_diffs_present_run (diffCountThreshold : Z) (w : World)
    (old : Z) :
  fileExists w (fullPath dataFilePath signature) = true ->
  findLocalVersion (sigtool env w sigtoolPath (fullPath dataFilePath signature))
  = Returned (old, None) ->
  0 <= old <= Version signature ->
  Version signature < MaxInt64 ->
  (forall v, old < v <= Version signature ->
             fileExists w (localDiffFilePathOf dataFilePath signature v) = true) ->
  Version signature - old <= diffCountThreshold ->
  update' diffCountThreshold (Z.to_nat (Version signature - old)) w
  = mkRun (advance w)
          [EvSigtool sigtoolPath (fullPath dataFilePath signature)
             (sigtool env w sigtoolPath (fullPath dataFilePath signature))]
          (Returned None).
Proof.
  intros Hex Hprobe Hold Hmax Hall Hthr. unfold updateFile.
  rewrite (bind_pure _ _ w (fileExists w (fullPath dataFilePath signature)))
    by reflexivity.
  rewrite Hex. cbn [negb].
  rewrite (bind_returned _ _ w
             (sigtool env w sigtoolPath (fullPath dataFilePath signature)))
    by reflexivity.
  cbn [runSigtool final trace outcome]. rewrite Hprobe.
  rewrite (bind_pure _ _ (advance w) (old, None)) by reflexivity.
  cbn [orb]. replace (old <? 0) with false by (symmetry; apply Z.ltb_ge; lia).
  rewrite !wrap64_small by (unfold MinInt64, MaxInt64 in *; lia).
  rewrite (bind_pure _ _ (advance w) LoopEnd).
  - replace (diffCountThreshold <? Version signature - old) with false
      by (symmetry; apply Z.ltb_ge; lia).
    reflexivity.
  - apply diffLoop_all_present; [assumption | unfold MinInt64; lia | lia |].
    intros v Hv. apply Hall. lia.
Qed.

(** X18: when every diff between the probed and the target version is there
    already and the gap does not exceed the threshold, [updateFile] calls
    [downloadFile] not once, sends nothing and leaves the files as they
    are. *)
Theorem updateFile_diffs_present (diffCountThreshold : Z) (w : World)
    (old : Z) :
  fileExists w (fullPath dataFilePath signature) = true ->
  findLocalVersion (sigtool env w sigtoolPath (fullPath dataFilePath signature))
  = Returned (old, None) ->
  0 <= old <= Version signature ->
  Version signature < MaxInt64 ->
  (forall v, old < v <= Version signature ->
             fileExists w (localDiffFilePathOf dataFilePath signature v) = true) ->
  Version signature - old <= diffCountThreshold ->
  let r := update' diffCountThreshold (Z.to_nat (Version signature - old)) w in
  calls (trace r) = [] /\ gets (trace r) = [] /\
  outcome r = Returned None /\ files (final r) = files w.
Proof.
  intros Hex Hprobe Hold Hmax Hall Hthr r. subst r.
  rewrite updateFile_diffs_present_run by assumption.
  repeat split.
Qed.

Lemma errorOf_error (o : Outcome (Z * option error)) (e : error) :
  errorOf o = Returned (Some e) -> exists status, o = Returned (status, Some e).
Proof. destruct o as [[st e']| |]; cbn; intros [= ->]. eauto. Qed.

Lemma diffLoop_return (fuel : nat) :
  forall (count : Z) (w : World) (e' : option error),
    outcome (loop' fuel count w) = Returned (LoopReturn e') ->
    last (calls (trace (loop' fuel count w)))
    = Some (fullCall dataFilePath signature) /\
    exists err w' status,
      e' = Some err /\ outcome (getFull' w') = Returned (status, Some err).
Proof.
  induction fuel as [|fuel IH]; intros count w e' H.
  - cbn [diffLoop] in H. destruct (count <=? Version signature); discriminate H.
  - destruct (Z.lt_ge_cases (Version signature) count) as [Hgt|Hle].
    { rewrite diffLoop_end in H by lia. discriminate H. }
    rewrite diffLoop_step in * by assumption.
    rewrite (bind_pure _ _ w (fileExists w (localDiffFilePathOf dataFilePath signature count)))
      in * by reflexivity.
    destruct (fileExists w (localDiffFilePathOf dataFilePath signature count)).
    { apply IH, H. }
    apply bind_inv in H as ([st e] & Hdiff & Hk & Htr & _).
    rewrite Htr, calls_app. unfold downloadDiff at 1. rewrite downloadFile_calls.
    cbn [snd] in *. destruct e as [err0|].
    + apply bind_inv in Hk as ([st' e''] & Hfull & Hk & Htr' & _).
      rewrite Htr', calls_app. unfold downloadFull at 1.
      rewrite downloadFile_calls. cbn [snd] in *.
      destruct e'' as [err|]; [|discriminate Hk].
      injection Hk as <-. split; [reflexivity|]. eauto.
    + destruct (IH _ _ _ Hk) as (Hlast & Hsrc). split; [|exact Hsrc].
      rewrite last_app, Hlast. reflexivity.
Qed.

(** X19: an error that [updateFile] returns is an error of a download of
    the full file, and that download is the last call of the run: the
    error of a diff is never returned. *)
Theorem updateFile_error_source (diffCountThreshold : Z) (fuel : nat)
    (w : World) (e : error) :
  let r := update' diffCountThreshold fuel w in
  outcome r = Returned (Some e) ->
  last (calls (trace r)) = Some (fullCall dataFilePath signature) /\
  exists w' status, outcome (getFull' w') = Returned (status, Some e).
Proof.
  intros r H. subst r. unfold updateFile in *.
  rewrite (bind_pure _ _ w (fileExists w (fullPath dataFilePath signature)))
    in * by reflexivity.
  destruct (fileExists w (fullPath dataFilePath signature)); cbn [negb] in *.
  2:{ rewrite fullDownload_as_download in *. cbn [trace outcome] in *.
      apply errorOf_error in H as [st H]. unfold downloadFull at 1.
      rewrite downloadFile_calls. split; [reflexivity | eauto]. }
  rewrite (bind_returned _ _ w
             (sigtool env w sigtoolPath (fullPath dataFilePath signature)))
    in * by reflexivity.
  cbn [runSigtool final trace outcome calls app] in *.
  destruct (findLocalVersion (sigtool env w sigtoolPath (fullPath dataFilePath signature)))
    as [[old e0]|msg|]; [|discriminate H..].
  rewrite (bind_pure _ _ (advance w) (old, e0)) in * by reflexivity.
  destruct ((match e0 with Some _ => true | None => false end) || (old <? 0)).
  { rewrite fullDownload_as_download in *. cbn [trace outcome] in *.
    apply errorOf_error in H as [st H]. unfold downloadFull at 1.
    rewrite downloadFile_calls. split; [reflexivity | eauto]. }
  apply bind_inv in H as (x & Hloop & Hk & Htr & _).
  rewrite Htr, calls_app.
  destruct x as [| |e'].
  - destruct (diffCountThreshold <? wrap64 (Version signature - old));
      [|discriminate Hk].
    rewrite fullDownload_as_download in *. cbn [trace outcome] in *.
    apply errorOf_error in Hk as [st Hk]. unfold downloadFull at 1.
    rewrite downloadFile_calls, last_snoc. split; [reflexivity | eauto].
  - destruct (diffCountThreshold <? wrap64 (Version signature - old));
      [|discriminate Hk].
    rewrite fullDownload_as_download in *. cbn [trace outcome] in *.
    apply errorOf_error in Hk as [st Hk]. unfold downloadFull at 1.
    rewrite downloadFile_calls, last_snoc. split; [reflexivity | eauto].
  - injection Hk as ->.
    destruct (diffLoop_return _ _ _ _ Hloop) as (Hlast & err & w' & st & [= <-] & Hsrc).
    cbn [ret trace calls]. rewrite app_nil_r. split; [exact Hlast | eauto].
Qed.

End UpdateFileMore.

(** ** File names *)

Lemma append_inj_l (a x y : string) : a ++ x = a ++ y -> x = y.
Proof.
  induction a as [|c a IH]; [exact (fun H => H)|].
  rewrite !append_cons. intros [= H]. exact (IH H).
Qed.

Lemma length_append (a b : string) :
  String.length (a ++ b) = (String.length a + String.length b)%nat.
Proof.
  induction a as [|c a IH]; [reflexivity|].
  rewrite append_cons. cbn [String.length]. rewrite IH. reflexivity.
Qed.

Lemma append_inj_r (b : string) :
  forall x y, x ++ b = y ++ b -> x = y.
Proof.
  assert (Hlen : forall c x, String c x ++ b <> b).
  { intros c x H. apply (f_equal String.length) in H.
    rewrite append_cons in H. cbn [String.length] in H.
    rewrite length_append in H. lia. }
  induction x as [|c x IH]; intros [|c' y] H.
  - reflexivity.
  - symmetry in H. destruct (Hlen _ _ H).
  - destruct (Hlen _ _ H).
  - rewrite !append_cons in H. injection H as -> H. f_equal. exact (IH _ H).
Qed.

(** X28: with the largest [int64] as target version, a validated local
    file of a non-negative version and a mirror on which no diff download
    fails, [updateFile] does not return: the loop condition
    [count <= currentVersion] holds for every counter, so no amount of
    fuel is enough. *)
Theorem updateFile_max_target_never_returns (env : Env) (verboseMode : bool)
    (dataFilePath sigtoolPath : string) (signature : Signature)
    (downloadMirrorURL : string) (diffCountThreshold : Z) (fuel : nat)
    (w : World) (old : Z) :
  Version signature = MaxInt64 ->
  (forall v w',
     fileExists w' (localDiffFilePathOf dataFilePath signature v) = false ->
     exists status,
       outcome (downloadDiff env verboseMode dataFilePath signature
                  downloadMirrorURL v w')
       = Returned (status, None)) ->
  fileExists w (fullPath dataFilePath signature) = true ->
  findLocalVersion (sigtool env w sigtoolPath (fullPath dataFilePath signature))
  = Returned (old, None) ->
  0 <= old ->
  outcome (updateFile env verboseMode dataFilePath sigtoolPath signature
             downloadMirrorURL diffCountThreshold fuel w)
  = OutOfFuel.
Proof.
  intros Hmax Hserved Hex Hprobe Hold.
  apply (updateFile_never_returns env verboseMode dataFilePath sigtoolPath
           signature downloadMirrorURL Hmax Hserved diffCountThreshold fuel
           w old Hex Hprobe Hold).
Qed.

(** X8: the diff files of two versions have different paths, and no diff
    file has the path of the full file. *)
Theorem diff_paths_distinct (dataFilePath : string) (signature : Signature)
    (v1 v2 : Z) :
  v1 <> v2 ->
  localDiffFilePathOf dataFilePath signature v1
  <> localDiffFilePathOf dataFilePath signature v2 /\
  localDiffFilePathOf dataFilePath signature v1 <> fullPath dataFilePath signature.
Proof.
  unfold localDiffFilePathOf, diffFilenameOf, fullPath, fullName.
  intros Hne. split.
  - intros H. do 4 apply append_inj_l in H.
    apply append_inj_r in H. apply Hne, FormatInt_inj, H.
  - intros H. do 3 apply append_inj_l in H. discriminate H.
Qed.

Lemma diff_paths_distinct_witness :
  localDiffFilePathOf "/data" (mkSignature "bytecode" 333) 331
  <> localDiffFilePathOf "/data" (mkSignature "bytecode" 333) 332 /\
  localDiffFilePathOf "/data" (mkSignature "bytecode" 333) 331
  <> fullPath "/data" (mkSignature "bytecode" 333).
Proof. apply diff_paths_distinct. lia. Defined.

(** ** [findSigtoolPath] *)

Lemma searchPath_absent (elements : list string) (w : World) :
  Forall (absent w) elements ->
  searchPath elements w = mkRun w [] (Returned ("", Some sigtoolNotFound)).
Proof.
  induction 1 as [|dir rest Hdir _ IH]; [reflexivity|].
  cbn [searchPath].
  rewrite (bind_pure _ _ w (fileExists w (dir ++ separator ++ execName)))
    by reflexivity.
  rewrite Hdir. exact IH.
Qed.

Lemma searchPath_found (elements : list string) (w : World) :
  forall p e,
    outcome (searchPath elements w) = Returned (p, e) ->
    final (searchPath elements w) = w /\ trace (searchPath elements w) = [] /\
    match e with
    | Some err => p = "" /\ err = sigtoolNotFound /\ Forall (absent w) elements
    | None =>
        exists pre dir post,
          elements = (pre ++ dir :: post)%list /\
          p = dir ++ separator ++ execName /\
          fileExists w p = true /\
          Forall (absent w) pre
    end.
Proof.
  induction elements as [|dir rest IH]; intros p e; cbn [searchPath].
  - intros [= <- <-]. repeat split; constructor.
  - rewrite (bind_pure _ _ w (fileExists w (dir ++ separator ++ execName)))
      by reflexivity.
    destruct (fileExists w (dir ++ separator ++ execName)) eqn:Hex.
    + intros [= <- <-]. repeat split.
      exists [], dir, rest. repeat split; [exact Hex | constructor].
    + intros H. destruct (IH _ _ H) as (Hf & Ht & Hres).
      repeat split; [exact Hf | exact Ht |].
      destruct e as [err|].
      * destruct Hres as (-> & -> & Hall). repeat split.
        constructor; assumption.
      * destruct Hres as (pre & d & post & -> & -> & Hp & Hpre).
        exists (dir :: pre), d, post. repeat split; [exact Hp|].
        constructor; assumption.
Qed.

Section FindSigtool.

Variable host : Host.

(** X20: without [./sigtool], a path that [findSigtoolPath] returns is
    [dir/sigtool] for the first directory [dir] of [PATH] that has it. *)
Theorem findSigtoolPath_first_in_PATH (w : World) (p : string) :
  fileExists w ("." ++ separator ++ execName) = false ->
  outcome (findSigtoolPath host w) = Returned (p, None) ->
  exists pre dir post,
    Split (envPATH host) envPathSeparator = (pre ++ dir :: post)%list /\
    p = dir ++ separator ++ execName /\
    fileExists w p = true /\
    Forall (absent w) pre.
Proof.
  intros Hloc H. unfold findSigtoolPath in H.
  rewrite (bind_pure _ _ w (fileExists w ("." ++ separator ++ execName))) in H
    by reflexivity.
  rewrite Hloc in H. apply searchPath_found in H as (_ & _ & H). exact H.
Qed.

(** X21: without [./sigtool] and with no directory of [PATH] that has
    sigtool, [findSigtoolPath] returns the empty path and the error "not
    found". *)
Theorem findSigtoolPath_not_found (w : World) :
  fileExists w ("." ++ separator ++ execName) = false ->
  Forall (absent w) (Split (envPATH host) envPathSeparator) ->
  findSigtoolPath host w = mkRun w [] (Returned ("", Some sigtoolNotFound)).
Proof.
  intros Hloc Hall. unfold findSigtoolPath.
  rewrite (bind_pure _ _ w (fileExists w ("." ++ separator ++ execName)))
    by reflexivity.
  rewrite Hloc. apply searchPath_absent, Hall.
Qed.

Lemma findSigtoolPath_pure (w : World) (p : string) (e : option error) :
  outcome (findSigtoolPath host w) = Returned (p, e) ->
  findSigtoolPath host w = mkRun w [] (Returned (p, e)).
Proof.
  unfold findSigtoolPath.
  rewrite (bind_pure _ _ w (fileExists w ("." ++ separator ++ execName)))
    by reflexivity.
  destruct (fileExists w ("." ++ separator ++ execName)).
  - destruct (filepathAbs host ("." ++ separator ++ execName));
      cbn [ret outcome]; intros [= <- <-]; reflexivity.
  - intros H. destruct (searchPath_found _ _ _ _ H) as (Hf & Ht & _).
    destruct (searchPath _ w) as [w' t o]. cbn in *. congruence.
Qed.

End FindSigtool.

(** ** [runSignatureUpdate] *)

Lemma bind_silent {A B} (m : M A) (k : A -> M B) (w w' : World) (a : A) :
  m w = mkRun w' [] (Returned a) -> bind m k w = k a w'.
Proof. unfold bind. intros ->. destruct (k a w'); reflexivity. Qed.

Section RunProofs.

Variables (env : Env) (host : Host) (verboseMode : bool)
          (dataFilePath downloadMirrorURL : string)
          (diffCountThreshold : Z) (fuel : nat).

Abbreviation run :=
  (runSignatureUpdate env host verboseMode dataFilePath downloadMirrorURL
     diffCountThreshold fuel).
Abbreviation updateOne sp name version :=
  (updateFile env verboseMode dataFilePath sp (mkSignature name version)
     downloadMirrorURL diffCountThreshold fuel).

(** X22: without sigtool a run ends at once with the error "not found": no
    DNS request (the world is the initial one), nothing probed, nothing
    downloaded. *)
Theorem runSignatureUpdate_without_sigtool (w : World) :
  fileExists w ("." ++ separator ++ execName) = false ->
  Forall (absent w) (Split (envPATH host) envPathSeparator) ->
  run w = mkRun w [] (Returned (Some sigtoolNotFound)).
Proof.
  intros Hloc Hall. unfold runSignatureUpdate.
  rewrite (bind_pure _ _ w ("", Some sigtoolNotFound)); [reflexivity|].
  unfold findSigtoolPath.
  rewrite (bind_pure _ _ w (fileExists w ("." ++ separator ++ execName)))
    by reflexivity.
  rewrite Hloc. apply searchPath_absent, Hall.
Qed.

(** X23: when the TXT record cannot be resolved, is missing or does not
    parse, the run returns an error before sigtool is run or anything is
    downloaded. *)
Theorem runSignatureUpdate_bad_record (w : World) (sp : string) :
  outcome (findSigtoolPath host w) = Returned (sp, None) ->
  match netLookupTXT host w mirrorDomain with
  | inl (rec :: _) => exists v e, parseTxtRecord rec = Returned (v, Some e)
  | _ => True
  end ->
  trace (run w) = [] /\
  files (final (run w)) = files w /\
  exists e, outcome (run w) = Returned (Some e).
Proof.
  intros Hsp Hrec. unfold runSignatureUpdate.
  rewrite (bind_pure _ _ w (sp, None)) by (apply findSigtoolPath_pure, Hsp).
  rewrite (bind_silent (pullTxtRecord host mirrorDomain) _ w _ _ eq_refl).
  destruct (netLookupTXT host w mirrorDomain) as [[|rec rest]|err].
  - repeat split. eauto.
  - destruct Hrec as (v & e & Hparse).
    rewrite (bind_pure _ _ (advance w) (v, Some e))
      by (unfold liftOutcome; rewrite Hparse; reflexivity).
    repeat split. eauto.
  - repeat split. eauto.
Qed.

(** X24: the artifacts are updated in the order main, daily, bytecode and
    the first error ends the run: when the update of main returns an
    error, the run returns it and has done nothing more than this
    update. *)
Theorem runSignatureUpdate_stops_at_main (w : World) (sp rec : string)
    (rest : list string) (versions : SignatureVersions) (e : error) :
  outcome (findSigtoolPath host w) = Returned (sp, None) ->
  netLookupTXT host w mirrorDomain = inl (rec :: rest) ->
  parseTxtRecord rec = Returned (versions, None) ->
  outcome (updateOne sp "main" (MainVersion versions) (advance w))
  = Returned (Some e) ->
  outcome (run w) = Returned (Some e) /\
  trace (run w) = trace (updateOne sp "main" (MainVersion versions) (advance w)).
Proof.
  intros Hsp Hlookup Hparse Hmain. unfold runSignatureUpdate.
  rewrite (bind_pure _ _ w (sp, None)) by (apply findSigtoolPath_pure, Hsp).
  rewrite (bind_silent (pullTxtRecord host mirrorDomain) _ w _ _ eq_refl).
  rewrite Hlookup.
  rewrite (bind_pure _ _ (advance w) (versions, None))
    by (unfold liftOutcome; rewrite Hparse; reflexivity).
  unfold signaturesToUpdate. cbn [updateEach].
  rewrite (bind_returned _ _ _ _ Hmain). cbn [ret final trace outcome].
  rewrite app_nil_r. split; reflexivity.
Qed.

Lemma updateFile_current_run (w : World) (sp name : string) (version : Z) :
  fileExists w (fullPath dataFilePath (mkSignature name version)) = true ->
  findLocalVersion
    (sigtool env w sp (fullPath dataFilePath (mkSignature name version)))
  = Returned (version, None) ->
  0 <= version < MaxInt64 ->
  0 <= diffCountThreshold ->
  updateOne sp name version w
  = mkRun (advance w)
          [EvSigtool sp (fullPath dataFilePath (mkSignature name version))
             (sigtool env w sp (fullPath dataFilePath (mkSignature name version)))]
          (Returned None).
Proof.
  intros Hex Hprobe Hv Hthr. unfold updateFile.
  rewrite (bind_pure _ _ w
             (fileExists w (fullPath dataFilePath (mkSignature name version))))
    by reflexivity.
  rewrite Hex. cbn [negb].
  rewrite (bind_returned _ _ w
             (sigtool env w sp (fullPath dataFilePath (mkSignature name version))))
    by reflexivity.
  cbn [runSigtool final trace outcome]. rewrite Hprobe.
  rewrite (bind_pure _ _ (advance w) (version, None)) by reflexivity.
  cbn [orb Version].
  replace (version <? 0) with false by (symmetry; apply Z.ltb_ge; lia).
  rewrite wrap64_small by (unfold MinInt64, MaxInt64 in *; lia).
  rewrite (bind_pure _ _ (advance w) LoopEnd)
    by (apply diffLoop_end; cbn [Version]; lia).
  rewrite Z.sub_diag.
  replace (diffCountThreshold <? wrap64 0) with false
    by (symmetry; apply Z.ltb_ge; exact Hthr).
  reflexivity.
Qed.

(** X25: when the three local files are validated at the versions of the
    TXT record, a run returns no error, calls [downloadFile] not once and
    leaves the files as they are. *)
Theorem runSignatureUpdate_all_current (w : World) (sp rec : string)
    (rest : list string) (versions : SignatureVersions) :
  outcome (findSigtoolPath host w) = Returned (sp, None) ->
  netLookupTXT host w mirrorDomain = inl (rec :: rest) ->
  parseTxtRecord rec = Returned (versions, None) ->
  current env dataFilePath w sp "main" (MainVersion versions) ->
  current env dataFilePath w sp "daily" (DailyVersion versions) ->
  current env dataFilePath w sp "bytecode" (ByteCodeVersion versions) ->
  0 <= diffCountThreshold ->
  outcome (run w) = Returned None /\
  calls (trace (run w)) = [] /\
  gets (trace (run w)) = [] /\
  files (final (run w)) = files w.
Proof.
  intros Hsp Hlookup Hparse (Hm1 & Hm2 & Hm3) (Hd1 & Hd2 & Hd3)
    (Hb1 & Hb2 & Hb3) Hthr.
  unfold runSignatureUpdate.
  rewrite (bind_pure _ _ w (sp, None)) by (apply findSigtoolPath_pure, Hsp).
  rewrite (bind_silent (pullTxtRecord host mirrorDomain) _ w _ _ eq_refl).
  rewrite Hlookup.
  rewrite (bind_pure _ _ (advance w) (versions, None))
    by (unfold liftOutcome; rewrite Hparse; reflexivity).
  unfold signaturesToUpdate. cbn [updateEach].
  rewrite (bind_returned _ _ (advance w) None)
    by (rewrite updateFile_current_run by auto; reflexivity).
  rewrite (updateFile_current_run (advance w)) by auto.
  cbn [final trace outcome].
  rewrite (bind_returned _ _ (advance (advance w)) None)
    by (rewrite updateFile_current_run by auto; reflexivity).
  rewrite (updateFile_current_run (advance (advance w))) by auto.
  cbn [final trace outcome].
  rewrite (bind_returned _ _ (advance (advance (advance w))) None)
    by (rewrite updateFile_current_run by auto; reflexivity).
  rewrite (updateFile_current_run (advance (advance (advance w)))) by auto.
  cbn [final trace outcome ret app calls gets advance files].
  repeat split.
Qed.

End RunProofs.

(** ** Sample runs for the further properties *)

Lemma downloadFile_head_error_witness :
  let env := SampleHost.offline (Sample.validated "57") in
  let w := Sample.world [("/data/main.cvd", mkFile 200 "old")] in
  let r := downloadFile env false "main.cvd" "/data/main.cvd" "http://mirror" w in
  outcome r
  = Returned (-1, Some (Wrapf ("Unable to complete HEAD request: ["
                                 ++ ("http://mirror" ++ "/" ++ "main.cvd")
                                 ++ "]. {{err}}")
                              (osError "no route to host")))
  /\ gets (trace r) = [].
Proof.
  apply (downloadFile_head_error
           (SampleHost.offline (Sample.validated "57"))
           false "main.cvd" "/data/main.cvd" "http://mirror"
           (Sample.world [("/data/main.cvd", mkFile 200 "old")])
           (osError "no route to host")).
  vm_compute. auto 10.
Defined.

Lemma downloadFile_get_failure_witness :
  let env := Sample.env "100" true ["http://mirror/main.cvd"] false false false
               (Sample.validated "57") in
  let w := Sample.world [] in
  let r := downloadFile env false "main.cvd" "/data/main.cvd" "http://mirror" w in
  outcome r
  = Returned (StatusCode Sample.notFound,
              Some (errorsNew ("Unable to download file: ["
                                 ++ Status Sample.notFound ++ "]")))
  /\ files (final r) !! "/data/main.cvd" = files w !! "/data/main.cvd"
  /\ (forall tmp res', ~ In (EvCopy tmp res') (trace r)).
Proof.
  apply (downloadFile_get_failure
           (Sample.env "100" true ["http://mirror/main.cvd"] false false false
              (Sample.validated "57"))
           false "main.cvd" "/data/main.cvd" "http://mirror" (Sample.world [])
           (inl Sample.notFound)).
  - vm_compute. auto 10.
  - discriminate.
  - intros tmp [= <-]. discriminate.
Defined.

Lemma downloadFile_installs_witness :
  let env := Sample.env "100" true [] false false false (Sample.validated "57") in
  let r := downloadFile env false "main.cvd" "/data/main.cvd" "http://mirror"
             (Sample.world []) in
  outcome r = Returned (StatusOK, None)
  /\ files (final r) !! "/data/main.cvd"
     = Some (mkFile 100 (Body (Sample.ok "100" false)))
  /\ files (final r) !! "/tmp/main.cvd-0" = None
  /\ (forall t', httpParseTime env (LastModified (Sample.ok "100" false)) = inl t' ->
                 100 = t').
Proof.
  apply (downloadFile_installs
           (Sample.env "100" true [] false false false (Sample.validated "57"))
           false "main.cvd" "/data/main.cvd" "http://mirror" (Sample.world [])
           (Sample.ok "100" false) "/tmp/main.cvd-0" 100).
  - vm_compute. auto 10.
  - vm_compute. auto 10.
  - vm_compute. auto 10.
  - discriminate.
Defined.

Lemma downloadFile_leaves_temp_file_witness :
  let env := Sample.env "300" true [] false false false (Sample.validated "57") in
  let w := Sample.world [("/data/main.cvd", mkFile 200 "old")] in
  is_Some (files (final (downloadFile env false "main.cvd" "/data/main.cvd"
                           "http://mirror" w)) !! "/tmp/main.cvd-0").
Proof.
  apply (downloadFile_leaves_temp_file
           (Sample.env "300" true [] false false false (Sample.validated "57"))
           false "main.cvd" "/data/main.cvd" "http://mirror"
           (Sample.world [("/data/main.cvd", mkFile 200 "old")])
           "/tmp/main.cvd-0").
  - reflexivity.
  - intros dst H. vm_compute in H.
    repeat destruct H as [H|H]; try discriminate H; exact H.
Defined.

Lemma downloadFile_success_status_witness :
  let env := Sample.env "100" true [] false false false (Sample.validated "57") in
  let r := downloadFile env false "main.cvd" "/data/main.cvd" "http://mirror"
             (Sample.world []) in
  (200 = StatusOK /\ gets (trace r) = ["http://mirror" ++ "/" ++ "main.cvd"]) \/
  (200 = -1 /\ gets (trace r) = []).
Proof.
  apply (downloadFile_success_status
           (Sample.env "100" true [] false false false (Sample.validated "57"))
           false "main.cvd" "/data/main.cvd" "http://mirror" (Sample.world []) 200).
  reflexivity.
Defined.

Lemma downloadFile_skip_decision_witness :
  let env := Sample.env "100" true [] false false false (Sample.validated "57") in
  let w := Sample.world [("/data/main.cvd", mkFile 200 "old")] in
  let r := downloadFile env false "main.cvd" "/data/main.cvd" "http://mirror" w in
  if 100 <? modTime (mkFile 200 "old")
  then gets (trace r) = ["http://mirror" ++ "/" ++ "main.cvd"]
  else gets (trace r) = [] /\ outcome r = Returned (-1, None).
Proof.
  apply (downloadFile_skip_decision
           (Sample.env "100" true [] false false false (Sample.validated "57"))
           false "main.cvd" "/data/main.cvd" "http://mirror"
           (Sample.world [("/data/main.cvd", mkFile 200 "old")])
           "/tmp/main.cvd-0" (mkFile 200 "old") (Sample.ok "100" false) 100).
  - reflexivity.
  - discriminate.
  - reflexivity.
  - vm_compute. auto 10.
  - reflexivity.
Defined.

Lemma parseTxtRecord_short_not_ok_witness :
  parseTxtRecord "0.99.2:57" <> Returned (mkVersions 57 0 0 0, None).
Proof.
  apply parseTxtRecord_short_not_ok. cbn. lia.
Defined.

Lemma updateFile_first_download_witness :
  let env := Sample.env "100" true [] false false false (Sample.validated "57") in
  let sig := mkSignature "main" 60 in
  let r := updateFile env false "/data" "/usr/bin/sigtool" sig "http://mirror"
             100 0 (Sample.world []) in
  trace r = trace (downloadFull env false "/data" sig "http://mirror" (Sample.world [])) /\
  calls (trace r) = [fullCall "/data" sig] /\
  (forall sp p run, ~ In (EvSigtool sp p run) (trace r)) /\
  outcome r
  = errorOf (outcome (downloadFull env false "/data" sig "http://mirror"
                        (Sample.world []))).
Proof.
  apply (updateFile_first_download
           (Sample.env "100" true [] false false false (Sample.validated "57"))
           false "/data" "/usr/bin/sigtool" (mkSignature "main" 60)
           "http://mirror" 100 0%nat (Sample.world [])).
  reflexivity.
Defined.

Lemma updateFile_untrusted_version_witness :
  let env := Sample.env "100" true [] false false false
               (mkSigtoolRun None None ["Version: 57"] None None) in
  let sig := mkSignature "main" 60 in
  let w := Sample.world [("/data/main.cvd", mkFile 200 "old")] in
  let r := updateFile env false "/data" "/usr/bin/sigtool" sig "http://mirror"
             100 0 w in
  calls (trace r) = [fullCall "/data" sig] /\
  outcome r
  = errorOf (outcome (downloadFull env false "/data" sig "http://mirror" (advance w))) /\
  final r = final (downloadFull env false "/data" sig "http://mirror" (advance w)).
Proof.
  apply (updateFile_untrusted_version
           (Sample.env "100" true [] false false false
              (mkSigtoolRun None None ["Version: 57"] None None))
           false "/data" "/usr/bin/sigtool" (mkSignature "main" 60)
           "http://mirror" 100 0%nat
           (Sample.world [("/data/main.cvd", mkFile 200 "old")])
           (-1) (Some notValidated)).
  - reflexivity.
  - reflexivity.
  - left. discriminate.
Defined.

Lemma updateFile_diffs_present_witness :
  let env := Sample.env "100" true [] false false false (Sample.validated "330") in
  let sig := mkSignature "bytecode" 333 in
  let w := Sample.world [("/data/bytecode.cvd", mkFile 200 "old");
                         ("/data/bytecode-331.cdiff", mkFile 201 "d1");
                         ("/data/bytecode-332.cdiff", mkFile 202 "d2");
                         ("/data/bytecode-333.cdiff", mkFile 203 "d3")] in
  let r := updateFile env false "/data" "/usr/bin/sigtool" sig "http://mirror"
             100 (Z.to_nat (Version sig - 330)) w in
  calls (trace r) = [] /\ gets (trace r) = [] /\
  outcome r = Returned None /\ files (final r) = files w.
Proof.
  apply (updateFile_diffs_present
           (Sample.env "100" true [] false false false (Sample.validated "330"))
           false "/data" "/usr/bin/sigtool" (mkSignature "bytecode" 333)
           "http://mirror" 100
           (Sample.world [("/data/bytecode.cvd", mkFile 200 "old");
                          ("/data/bytecode-331.cdiff", mkFile 201 "d1");
                          ("/data/bytecode-332.cdiff", mkFile 202 "d2");
                          ("/data/bytecode-333.cdiff", mkFile 203 "d3")])
           330).
  - reflexivity.
  - reflexivity.
  - cbn. lia.
  - reflexivity.
  - cbn [Version]. intros v Hv.
    assert (Hcases : v = 331 \/ v = 332 \/ v = 333) by lia.
    destruct Hcases as [->|[->| ->]]; reflexivity.
  - cbn. lia.
Defined.

Lemma updateFile_error_source_witness :
  let env := Sample.env "100" true ["http://mirror/main.cvd"] false false false
               (Sample.validated "57") in
  let sig := mkSignature "main" 60 in
  let r := updateFile env false "/data" "/usr/bin/sigtool" sig "http://mirror"
             100 0 (Sample.world []) in
  last (calls (trace r)) = Some (fullCall "/data" sig) /\
  exists w' status,
    outcome (downloadFull env false "/data" sig "http://mirror" w')
    = Returned (status, Some (errorsNew "Unable to download file: [404 Not Found]")).
Proof.
  apply (updateFile_error_source
           (Sample.env "100" true ["http://mirror/main.cvd"] false false false
              (Sample.validated "57"))
           false "/data" "/usr/bin/sigtool" (mkSignature "main" 60)
           "http://mirror" 100 0%nat (Sample.world [])
           (errorsNew "Unable to download file: [404 Not Found]")).
  reflexivity.
Defined.

Lemma updateFile_threshold_refresh_witness :
  let env := Sample.env "100" true [] false false false (Sample.validated "5") in
  let sig := mkSignature "main" 120 in
  let w := Sample.world [("/data/main.cvd", mkFile 200 "old")] in
  last (calls (trace (updateFile env false "/data" "/usr/bin/sigtool" sig
                        "http://mirror" 100 (Z.to_nat (Version sig - 5)) w)))
  = Some (fullCall "/data" sig).
Proof.
  apply (updateFile_threshold_refresh
           (Sample.env "100" true [] false false false (Sample.validated "5"))
           false "/data" "/usr/bin/sigtool" (mkSignature "main" 120)
           "http://mirror" 100
           (Sample.world [("/data/main.cvd", mkFile 200 "old")]) 5).
  - intros w pfx. eexists. reflexivity.
  - reflexivity.
  - reflexivity.
  - lia.
  - cbn. lia.
  - reflexivity.
Defined.

Lemma updateFile_max_target_never_returns_witness :
  let env := Sample.env "100" true [] false false false (Sample.validated "5") in
  let w := Sample.world [("/data/main.cvd", mkFile 200 "old")] in
  outcome (updateFile env false "/data" "/usr/bin/sigtool"
             (mkSignature "main" MaxInt64) "http://mirror" 100 40 w)
  = OutOfFuel.
Proof.
  apply (updateFile_max_target_never_returns
           (Sample.env "100" true [] false false false (Sample.validated "5"))
           false "/data" "/usr/bin/sigtool" (mkSignature "main" MaxInt64)
           "http://mirror" 100 40%nat _ 5 eq_refl (sample_diffs_served _ _));
    [reflexivity | reflexivity | lia].
Defined.

Lemma findSigtoolPath_first_in_PATH_witness :
  let host := SampleHost.host [] "/usr/local/bin:/usr/bin:/bin" in
  let w := Sample.world [("/usr/bin/sigtool", mkFile 1 "elf");
                         ("/bin/sigtool", mkFile 1 "elf")] in
  exists pre dir post,
    Split (envPATH host) envPathSeparator = (pre ++ dir :: post)%list /\
    "/usr/bin/sigtool" = dir ++ separator ++ execName /\
    fileExists w "/usr/bin/sigtool" = true /\
    Forall (absent w) pre.
Proof.
  apply (findSigtoolPath_first_in_PATH
           (SampleHost.host [] "/usr/local/bin:/usr/bin:/bin")
           (Sample.world [("/usr/bin/sigtool", mkFile 1 "elf");
                          ("/bin/sigtool", mkFile 1 "elf")])
           "/usr/bin/sigtool").
  - reflexivity.
  - reflexivity.
Defined.

Lemma findSigtoolPath_not_found_witness :
  findSigtoolPath (SampleHost.host [] "") (Sample.world [])
  = mkRun (Sample.world []) [] (Returned ("", Some sigtoolNotFound)).
Proof.
  apply (findSigtoolPath_not_found (SampleHost.host [] "") (Sample.world [])).
  - reflexivity.
  - repeat constructor.
Defined.

Lemma runSignatureUpdate_without_sigtool_witness :
  let env := Sample.env "100" true [] false false false (Sample.validated "57") in
  runSignatureUpdate env (SampleHost.host ["x"] "/usr/bin") false "/data"
    "http://mirror" 100 0 (Sample.world [])
  = mkRun (Sample.world []) [] (Returned (Some sigtoolNotFound)).
Proof.
  apply (runSignatureUpdate_without_sigtool
           (Sample.env "100" true [] false false false (Sample.validated "57"))
           (SampleHost.host ["x"] "/usr/bin") false "/data" "http://mirror"
           100 0%nat (Sample.world [])).
  - reflexivity.
  - repeat constructor.
Defined.

Lemma runSignatureUpdate_bad_record_witness :
  let env := Sample.env "100" true [] false false false (Sample.validated "57") in
  let host := SampleHost.host ["0.99.2:x:1"] "/usr/bin" in
  let w := Sample.world [("/usr/bin/sigtool", mkFile 1 "elf")] in
  let r := runSignatureUpdate env host false "/data" "http://mirror" 100 0 w in
  trace r = [] /\ files (final r) = files w /\
  exists e, outcome r = Returned (Some e).
Proof.
  apply (runSignatureUpdate_bad_record
           (Sample.env "100" true [] false false false (Sample.validated "57"))
           (SampleHost.host ["0.99.2:x:1"] "/usr/bin") false "/data"
           "http://mirror" 100 0%nat
           (Sample.world [("/usr/bin/sigtool", mkFile 1 "elf")])
           "/usr/bin/sigtool").
  - reflexivity.
  - cbn. eexists _, _. reflexivity.
Defined.

Lemma runSignatureUpdate_stops_at_main_witness :
  let env := Sample.env "100" true ["http://mirror/main.cvd"] false false false
               (Sample.validated "57") in
  let host := SampleHost.host ["0.99.2:57:21723:1465773540:0:63:44737:283"]
                "/usr/bin" in
  let w := Sample.world [("/usr/bin/sigtool", mkFile 1 "elf")] in
  let r := runSignatureUpdate env host false "/data" "http://mirror" 100 0 w in
  outcome r
  = Returned (Some (errorsNew "Unable to download file: [404 Not Found]")) /\
  trace r
  = trace (updateFile env false "/data" "/usr/bin/sigtool"
             (mkSignature "main" (MainVersion (mkVersions 57 21723 44737 283)))
             "http://mirror" 100 0 (advance w)).
Proof.
  apply (runSignatureUpdate_stops_at_main
           (Sample.env "100" true ["http://mirror/main.cvd"] false false false
              (Sample.validated "57"))
           (SampleHost.host ["0.99.2:57:21723:1465773540:0:63:44737:283"]
              "/usr/bin")
           false "/data" "http://mirror" 100 0%nat
           (Sample.world [("/usr/bin/sigtool", mkFile 1 "elf")])
           "/usr/bin/sigtool" "0.99.2:57:21723:1465773540:0:63:44737:283" []
           (mkVersions 57 21723 44737 283)
           (errorsNew "Unable to download file: [404 Not Found]")).
  - reflexivity.
  - reflexivity.
  - reflexivity.
  - reflexivity.
Defined.

Lemma runSignatureUpdate_all_current_witness :
  let env := Sample.env "100" true [] false false false (Sample.validated "57") in
  let host := SampleHost.host ["0.99.2:57:57:1465773540:0:63:44737:57"]
                "/usr/bin" in
  let w := Sample.world [("/usr/bin/sigtool", mkFile 1 "elf");
                         ("/data/main.cvd", mkFile 200 "m");
                         ("/data/daily.cvd", mkFile 200 "d");
                         ("/data/bytecode.cvd", mkFile 200 "b")] in
  let r := runSignatureUpdate env host false "/data" "http://mirror" 100 0 w in
  outcome r = Returned None /\ calls (trace r) = [] /\ gets (trace r) = [] /\
  files (final r) = files w.
Proof.
  apply (runSignatureUpdate_all_current
           (Sample.env "100" true [] false false false (Sample.validated "57"))
           (SampleHost.host ["0.99.2:57:57:1465773540:0:63:44737:57"] "/usr/bin")
           false "/data" "http://mirror" 100 0%nat
           (Sample.world [("/usr/bin/sigtool", mkFile 1 "elf");
                          ("/data/main.cvd", mkFile 200 "m");
                          ("/data/daily.cvd", mkFile 200 "d");
                          ("/data/bytecode.cvd", mkFile 200 "b")])
           "/usr/bin/sigtool" "0.99.2:57:57:1465773540:0:63:44737:57" []
           (mkVersions 57 57 44737 57)).
  - reflexivity.
  - reflexivity.
  - reflexivity.
  - repeat split; cbn; unfold MaxInt64; lia.
  - repeat split; cbn; unfold MaxInt64; lia.
  - repeat split; cbn; unfold MaxInt64; lia.
  - lia.
Defined.
